(** * DigitoolTest: ground-risk-buffer calculator and layer assembly

    A shallow embedding of [grb.py] (the distance calculator) and of the
    [run] handler of [app.py] (the layer assembler), with the properties
    its specification states about them.

    Modelling conventions.
    - Python floats are read as real numbers ([R]); rounding and overflow
      are not modelled.  In particular [pow(v0, 2)] is [v0 ^ 2] and never
      raises [OverflowError]: a statement about a distance is made
      wherever the code returns it, which is a hypothesis of the
      statement.
    - A Python exception is a value of [exn]; a call that may raise returns
      a [result].
    - Float division raises [ZeroDivisionError] on a zero divisor and
      [math.sqrt] raises [ValueError] on a negative argument: [pydiv] and
      [pysqrt].  Divisions by a non-zero literal are written with [/].
    - The geometry libraries ([shapely], [pyproj]) are outside the
      repository.  Their calls build symbolic terms ([geom]) and are logged
      as [event]s, so that the order of the work is observable.  Their
      own failures (a geometry [shapely] rejects, a projection that
      fails) are not modelled: what is stated of a run that reaches a
      geometry is stated of a run that returns. *)

From Stdlib Require Import Reals Lra ZArith String List.
Import ListNotations.
Local Open Scope string_scope.
Local Open Scope list_scope.
Local Open Scope R_scope.

(** ** Exceptions and fallible computations *)

Inductive exn : Type :=
| AttributeError (attr : string)
| KeyError (key : string)
| ValueError (msg : string)
| ZeroDivisionError
| HTTPException (status_code : Z) (detail : string).

Inductive result (A : Type) : Type :=
| Ok (a : A)
| Raise (e : exn).
Arguments Ok {A} a.
Arguments Raise {A} e.

Definition bind {A B : Type} (m : result A) (k : A -> result B) : result B :=
  match m with
  | Ok a => k a
  | Raise e => Raise e
  end.

Declare Scope result_scope.
Delimit Scope result_scope with result.
Notation "x <- m ;; k" := (bind m (fun x => k))
  (at level 61, m at next level, right associativity) : result_scope.
Local Open Scope result_scope.

(** Python's float division. *)
Definition pydiv (x y : R) : result R :=
  if Req_dec_T y 0 then Raise ZeroDivisionError else Ok (x / y).

(** [math.sqrt]. *)
Definition pysqrt (x : R) : result R :=
  if Rlt_dec x 0 then Raise (ValueError "math domain error") else Ok (sqrt x).

(** A dict with string keys, in insertion order; [d[k]]. *)
Fixpoint getitem {V : Type} (d : list (string * V)) (k : string) : result V :=
  match d with
  | [] => Raise (KeyError k)
  | (k', v) :: d' => if String.eqb k k' then Ok v else getitem d' k
  end.

(** ** grb.py *)

Module grb.

(** One row of [CONST]: the dict of named constants of a version. *)
Record constants : Type := {
  trt : R;
  g : R;
  sgps : R;
  spos : R;
  smap : R;
  hbaro : R;
  roh_rotorcraft : R;
  roh_fixedwing : R;
  tdlt : R;
  Vtr : R;
  RODtr : R
}.

(** The row [CONST["3.3.0"]]. *)
Definition CONST_3_3_0 : constants :=
  {| trt := 1.00;
     g := 9.81;
     sgps := 3.00;
     spos := 3.00;
     smap := 1.00;
     hbaro := 4.00;
     roh_rotorcraft := 45.00;
     roh_fixedwing := 30.00;
     tdlt := 15.00;
     Vtr := 25.00;
     RODtr := 3.00 |}.

Definition CONST : list (string * constants) :=
  [ ("3.3.0", CONST_3_3_0) ].

Definition CURRENT_VERSION : string := "3.3.0".
Definition AIRCRAFTTYPS : list string := ["rotorcraft"; "fixedwing"].

Definition torad (value : R) : R := value * PI / 180.0.

(** The value compared with ["BVLOS"] in [get_ddeco]: [run] passes a string
    in one call and a float in the other. *)
Inductive pyval : Type :=
| PyStr (s : string)
| PyFloat (x : R).

(** [operationtype == "BVLOS"] *)
Definition is_BVLOS (operationtype : pyval) : bool :=
  match operationtype with
  | PyStr s => String.eqb s "BVLOS"
  | PyFloat _ => false
  end.

(** ["Aircrafttype {} not in list {}".format(aircrafttype, AIRCRAFTTYPS)] *)
Definition aircrafttype_not_in_list (aircrafttype : string) : string :=
  String.append "Aircrafttype "
    (String.append aircrafttype
       " not in list ['rotorcraft', 'fixedwing']").

(** The attributes of an instance of [GroundRiskBufferCalc]. *)
Record GroundRiskBufferCalc : Type := {
  version : string;
  const : constants;
  aircrafttype : string;
  prs_enabled : bool
}.

(** [GroundRiskBufferCalc.__init__].  [self.version] is assigned only when
    [version == "current"]; reading it otherwise raises [AttributeError]. *)
Definition __init__ (version aircrafttype : string) (prs_enabled : bool)
  : result GroundRiskBufferCalc :=
  let self_version :=
    if String.eqb version "current" then Some CURRENT_VERSION else None in
  v <- match self_version with
       | Some v => Ok v
       | None => Raise (AttributeError "version")
       end ;;
  c <- getitem CONST v ;;
  if in_dec string_dec aircrafttype AIRCRAFTTYPS
  then Ok {| version := v; const := c;
             aircrafttype := aircrafttype; prs_enabled := prs_enabled |}
  else Raise (KeyError (aircrafttype_not_in_list aircrafttype)).

Definition get_srt (self : GroundRiskBufferCalc) (v0 : R) : R :=
  trt (const self) * v0.

Definition get_scm (self : GroundRiskBufferCalc) (v0 : R) : result R :=
  if String.eqb (aircrafttype self) "rotorcraft" then
    let roh_deg := roh_rotorcraft (const self) in
    q <- pydiv (v0 ^ 2) (g (const self) * tan (torad roh_deg)) ;;
    Ok (0.5 * q)
  else
    let roh_deg := roh_fixedwing (const self) in
    pydiv (v0 ^ 2) (g (const self) * tan (torad roh_deg)).

Definition get_hrt (self : GroundRiskBufferCalc) (v0 roc : R) : R :=
  if String.eqb (aircrafttype self) "rotorcraft" then
    roc * trt (const self)
  else
    (sqrt 2 / 2) * v0 * trt (const self).

Definition get_hcm (self : GroundRiskBufferCalc) (v0 : R) : result R :=
  if String.eqb (aircrafttype self) "rotorcraft" then
    q <- pydiv (v0 ^ 2) (g (const self)) ;;
    Ok (0.5 * q)
  else
    q <- pydiv (v0 ^ 2) (g (const self)) ;;
    Ok (0.3 * q).

Definition get_hcv (self : GroundRiskBufferCalc) (v0 hfg roc : R)
  : result R :=
  hcm <- get_hcm self v0 ;;
  Ok (hfg + hbaro (const self) + get_hrt self v0 roc + hcm).

Definition get_scv (self : GroundRiskBufferCalc) (v0 : R) : result R :=
  scm <- get_scm self v0 ;;
  Ok (sgps (const self) + spos (const self) + smap (const self)
      + get_srt self v0 + scm).

Definition get_sgrb (self : GroundRiskBufferCalc) (v0 vw cd hfg roc : R)
  : result R :=
  if prs_enabled self then
    hcv <- get_hcv self v0 hfg roc ;;
    Ok (v0 * 2 + vw * (hcv / 5))
  else if String.eqb (aircrafttype self) "rotorcraft" then
    hcv <- get_hcv self v0 hfg roc ;;
    q <- pydiv (2 * hcv) (g (const self)) ;;
    s <- pysqrt q ;;
    let sgrb := v0 * s + 0.5 * cd in
    hcv1 <- get_hcv self v0 hfg roc ;;
    if Rgt_dec sgrb (hcv1 + 0.5 * cd) then
      hcv2 <- get_hcv self v0 hfg roc ;;
      Ok (hcv2 + 0.5 * cd)
    else
      Ok sgrb
  else
    hcv <- get_hcv self v0 hfg roc ;;
    Ok (hcv + 0.5 * cd).

Definition get_te (self : GroundRiskBufferCalc) (rod hfg : R) : result R :=
  q <- pydiv (hfg - 30) rod ;;
  Ok (tdlt (const self) + trt (const self) + q).

Definition get_ddeco (self : GroundRiskBufferCalc) (v0 rod hfg : R)
  (operationtype : pyval) (cd : R) : result R :=
  if is_BVLOS operationtype then
    te <- get_te self rod hfg ;;
    Ok (te * (Vtr (const self) + v0))
  else
    let ALOS :=
      if String.eqb (aircrafttype self) "rotorcraft" then 327 * cd + 20
      else 490 * cd + 30 in
    q <- pydiv (hfg - 30) rod ;;
    let teva := trt (const self) + q in
    let deva := (Vtr (const self) + v0) * teva in
    let DLOS := deva + ALOS in
    if Rgt_dec (DLOS / 0.3) 5000 then Ok 5000 else Ok (DLOS / 0.3).

Definition get_hdeco (self : GroundRiskBufferCalc) (roc rod hfg : R)
  : result R :=
  te <- get_te self rod hfg ;;
  Ok ((RODtr (const self) + roc) * te).

Definition get_adjacent_area (self : GroundRiskBufferCalc) (v0 : R) : R :=
  let aasize := v0 * 180 in
  Rmax 5000 (Rmin aasize 35000).

End grb.

(** ** app.py *)

Module app.

(** *** The geometry libraries, symbolically *)

(** A GeoJSON geometry dict of the request. *)
Record geojson : Type := {
  gj_type : string;
  gj_coordinates : list (list (R * R))
}.

(** [pyproj.Transformer.from_crs(src, dst, always_xy=True)]. *)
Record Transformer : Type := { crs_from : string; crs_to : string }.

(** A shapely geometry, as the term of the calls that built it. *)
#[warnings="-register-all"]
Inductive geom : Type :=
| shape_of (geometry : geojson)
| union_of (geoms : list geom)
| transformed (t : Transformer) (x : geom)
| buffered (x : geom) (distance : R).

(** The dict [shapely.geometry.mapping] returns. *)
Inductive geometry_dict : Type :=
| mapping_of (x : geom).

(** The library calls [run] makes. *)
Inductive event : Type :=
| ev_from_crs (src dst : string)
| ev_shape (geometry : geojson)
| ev_unary_union (geoms : list geom)
| ev_transform (t : Transformer) (x : geom)
| ev_buffer (x : geom) (distance : R)
| ev_mapping (x : geom).

(** Work on a geometry: everything but the construction of a transformer. *)
Definition geometry_work (e : event) : bool :=
  match e with
  | ev_from_crs _ _ => false
  | _ => true
  end.

(** A computation that logs library calls and may raise; the log is kept
    up to the point of the exception. *)
Definition io (A : Type) : Type := (list event * result A)%type.

Definition ret {A : Type} (a : A) : io A := ([], Ok a).

Definition raise {A : Type} (e : exn) : io A := ([], Raise e).

Definition lift {A : Type} (r : result A) : io A := ([], r).

Definition call {A : Type} (e : event) (a : A) : io A := ([e], Ok a).

Definition iobind {A B : Type} (m : io A) (k : A -> io B) : io B :=
  match m with
  | (tr, Ok a) => let (tr', r) := k a in (tr ++ tr', r)
  | (tr, Raise e) => (tr, Raise e)
  end.

Declare Scope io_scope.
Delimit Scope io_scope with io.
Notation "x <- m ;; k" := (iobind m (fun x => k))
  (at level 61, m at next level, right associativity) : io_scope.

Definition from_crs (src dst : string) : io Transformer :=
  call (ev_from_crs src dst) {| crs_from := src; crs_to := dst |}.

Definition shape (d : geojson) : io geom :=
  call (ev_shape d) (shape_of d).

Definition unary_union (geoms : list geom) : io geom :=
  call (ev_unary_union geoms) (union_of geoms).

Definition transform (t : Transformer) (x : geom) : io geom :=
  call (ev_transform t x) (transformed t x).

Definition buffer (x : geom) (distance : R) : io geom :=
  call (ev_buffer x distance) (buffered x distance).

Definition mapping (x : geom) : io geometry_dict :=
  call (ev_mapping x) (mapping_of x).

(** *** Request and response *)

Record Params : Type := {
  hfg : R;
  opType : string;
  aircraftType : string;
  prsEquipped : bool;
  cd : R;
  v0 : R;
  roc : R;
  rod : R;
  wind : R
}.

(** The [gt=0] constraints of the [Params] fields, which the framework
    checks before [run] is called. *)
Definition validated (p : Params) : Prop :=
  0 < roc p /\ 0 < rod p /\ 0 < wind p.

(** A feature dict of the request, read only through [f["geometry"]]. *)
Record feature : Type := { geometry : option geojson }.

(** The [fg] dict, read only through [fg.get("features", [])]. *)
Record FeatureCollectionIn : Type := { features : option (list feature) }.

Record RunReq : Type := { fg : FeatureCollectionIn; params : Params }.

(** A value of a style dict. *)
Inductive jval : Type :=
| JStr (s : string)
| JInt (z : Z)
| JNum (x : R).

Definition style : Type := list (string * jval).

(** A value of a feature's ["properties"] dict. *)
Inductive pval : Type :=
| PStyle (s : style)
| PStr (s : string).

Record Feature : Type := {
  f_type : string;
  f_geometry : geometry_dict;
  f_properties : list (string * pval)
}.

Record FeatureCollection : Type := {
  fc_type : string;
  fc_features : list Feature
}.

Record Meta : Type := {
  scv_m : R;
  hcv_m : R;
  grb_m : R;
  ah_m : R;
  sd_m : R;
  hd_m : option R;
  aa_m : R;
  inputs : Params
}.

(** A layer value is a dict or [None]. *)
Record Response : Type := {
  meta : Meta;
  layers : list (string * option FeatureCollection)
}.

(** [d[k] = v] on a dict in insertion order. *)
Fixpoint setitem {V : Type} (d : list (string * V)) (k : string) (v : V)
  : list (string * V) :=
  match d with
  | [] => [(k, v)]
  | (k', v') :: d' =>
      if String.eqb k k' then (k, v) :: d' else (k', v') :: setitem d' k v
  end.

(** *** The helpers local to [run] *)

Local Open Scope io_scope.

Definition buf (base_lv95 : geom) (to_wgs84 : Transformer)
  (distance_m : option R) : io (option geometry_dict) :=
  match distance_m with
  | None => ret None
  | Some d =>
      if Rle_dec d 0 then ret None
      else
        buffered_lv95 <- buffer base_lv95 d ;;
        buffered_wgs84 <- transform to_wgs84 buffered_lv95 ;;
        m <- mapping buffered_wgs84 ;;
        ret (Some m)
  end.

Definition feature_or_none (base_lv95 : geom) (to_wgs84 : Transformer)
  (distance_m : option R) (st : style) : io (option Feature) :=
  geom <- buf base_lv95 to_wgs84 distance_m ;;
  match geom with
  | None => ret None
  | Some gd =>
      ret (Some {| f_type := "Feature";
                   f_geometry := gd;
                   f_properties := [("style", PStyle st)] |})
  end.

(** [fc]: a FeatureCollection of the arguments that are not [None]. *)
Definition fc (fs : list (option Feature)) : FeatureCollection :=
  {| fc_type := "FeatureCollection";
     fc_features :=
       flat_map (fun f => match f with Some x => [x] | None => [] end) fs |}.

Definition style_ca : style :=
  [("color", JStr "#000000"); ("weight", JInt 1); ("opacity", JInt 1);
   ("fillColor", JStr "#DDB027"); ("fillOpacity", JNum 0.5)].
Definition style_grb : style :=
  [("color", JStr "#000000"); ("weight", JInt 1); ("opacity", JInt 1);
   ("fillColor", JStr "#DD3927"); ("fillOpacity", JNum 0.5)].
Definition style_ah : style :=
  [("color", JStr "#0000FF"); ("weight", JInt 3); ("opacity", JInt 1);
   ("dashArray", JStr "4,6"); ("fillOpacity", JInt 0)].
Definition style_sd : style :=
  [("color", JStr "#00009B"); ("weight", JInt 3); ("opacity", JInt 1);
   ("dashArray", JStr "4,6"); ("fillOpacity", JInt 0)].
Definition style_aa : style :=
  [("color", JStr "#FF0000"); ("weight", JInt 3); ("opacity", JInt 1);
   ("dashArray", JStr "2,6"); ("fillOpacity", JInt 0)].

(** [add_name(fc_obj, name)].  [None] stands for an argument that is falsy
    or not a dict, returned as it is; a FeatureCollection dict is never
    falsy, it has two keys.  Every feature built by [feature_or_none] has a
    ["properties"] dict, which [setdefault] returns. *)
Definition add_name (fc_obj : option FeatureCollection) (name : string)
  : option FeatureCollection :=
  match fc_obj with
  | None => None
  | Some o =>
      Some {| fc_type := fc_type o;
              fc_features :=
                map (fun f =>
                       {| f_type := f_type f;
                          f_geometry := f_geometry f;
                          f_properties :=
                            setitem (f_properties f) "name" (PStr name) |})
                    (fc_features o) |}
  end.

(** [[shape(f["geometry"]) for f in feats]] *)
Fixpoint shapes (feats : list feature) : io (list geom) :=
  match feats with
  | [] => ret []
  | f :: rest =>
      d <- match geometry f with
           | Some d => ret d
           | None => raise (KeyError "geometry")
           end ;;
      x <- shape d ;;
      xs <- shapes rest ;;
      ret (x :: xs)
  end.

(** One entry of the [layers] dict literal. *)
Definition layer (base_lv95 : geom) (to_wgs84 : Transformer)
  (distance_m : R) (st : style) (name : string)
  : io (option FeatureCollection) :=
  f <- feature_or_none base_lv95 to_wgs84 (Some distance_m) st ;;
  ret (add_name (Some (fc [f])) name).

(** *** [run] *)

Definition run (req : RunReq) : io Response :=
  let p := params req in
  grb <- lift (grb.__init__ "current" (aircraftType p) (prsEquipped p)) ;;
  scv_m <- lift (grb.get_scv grb (v0 p)) ;;
  hcv_m <- lift (grb.get_hcv grb (v0 p) (hfg p) (roc p)) ;;
  grb_m <- lift (grb.get_sgrb grb (v0 p) (wind p) (cd p) (hfg p) (roc p)) ;;
  sd_m <- lift (grb.get_ddeco grb (v0 p) (rod p) (cd p)
                  (grb.PyFloat (hfg p)) (wind p)) ;;
  let aa_m := grb.get_adjacent_area grb (v0 p) in
  sd_m <- lift (grb.get_ddeco grb (v0 p) (rod p) (hfg p)
                  (grb.PyStr (opType p)) (cd p)) ;;
  hd_m <- (if String.eqb (opType p) "BVLOS"
           then h <- lift (grb.get_hdeco grb (roc p) (rod p) (hfg p)) ;;
                ret (Some h)
           else ret None) ;;
  let ah_m := 1000.0 in
  to_lv95 <- from_crs "EPSG:4326" "EPSG:2056" ;;
  to_wgs84 <- from_crs "EPSG:2056" "EPSG:4326" ;;
  let feats := match features (fg req) with Some l => l | None => [] end in
  match feats with
  | [] => raise (HTTPException 400 "No features found in FG GeoJSON.")
  | _ :: _ =>
      xs <- shapes feats ;;
      base_wgs84 <- unary_union xs ;;
      base_lv95 <- transform to_lv95 base_wgs84 ;;
      l_ca <- layer base_lv95 to_wgs84 scv_m style_ca
                "Scv (Containment Area)" ;;
      l_grb <- layer base_lv95 to_wgs84 (grb_m + scv_m) style_grb
                 "Grb (Ground Risk Buffer)" ;;
      l_ah <- layer base_lv95 to_wgs84 (ah_m + scv_m) style_ah
                "Assemblies Horizon" ;;
      l_aa <- layer base_lv95 to_wgs84 (aa_m + grb_m) style_aa
                "Adjacent Area" ;;
      l_sd <- layer base_lv95 to_wgs84 (sd_m + scv_m) style_sd
                "Detection Area" ;;
      ret {| meta := {| scv_m := scv_m; hcv_m := hcv_m; grb_m := grb_m;
                        ah_m := ah_m; sd_m := sd_m; hd_m := hd_m;
                        aa_m := aa_m; inputs := p |};
             layers := [ ("ca", l_ca); ("grb", l_grb);
                         ("assemblies_horizon", l_ah);
                         ("adjacent_area", l_aa);
                         ("detection_area", l_sd) ] |}
  end.

End app.

(** ** Definitions used by the statements *)

(** [clamp(x, lo, hi)], as the specification words it. *)
Definition clamp (x lo hi : R) : R :=
  if Rlt_dec x lo then lo else if Rlt_dec hi x then hi else x.

(** The instance [GroundRiskBufferCalc(aircrafttype=a, prs_enabled=p)]
    holds once its constructor has returned. *)
Definition calc (a : string) (p : bool) : grb.GroundRiskBufferCalc :=
  {| grb.version := grb.CURRENT_VERSION;
     grb.const := grb.CONST_3_3_0;
     grb.aircrafttype := a;
     grb.prs_enabled := p |}.

(** The fixed offset [ALOS] of the VLOS branch, by aircraft class, as the
    specification words it. *)
Definition ALOS (a : string) (cd : R) : R :=
  if string_dec a "rotorcraft" then 327 * cd + 20 else 490 * cd + 30.

(** The two transformers [run] builds. *)
Definition to_lv95 : app.Transformer :=
  {| app.crs_from := "EPSG:4326"; app.crs_to := "EPSG:2056" |}.
Definition to_wgs84 : app.Transformer :=
  {| app.crs_from := "EPSG:2056"; app.crs_to := "EPSG:4326" |}.

(** [base_lv95] for the request geometries [ds]: their union, projected. *)
Definition base_lv95 (ds : list app.geojson) : app.geom :=
  app.transformed to_lv95 (app.union_of (map app.shape_of ds)).

(** A polygon collection with no feature. *)
Definition empty_collection : app.FeatureCollection :=
  {| app.fc_type := "FeatureCollection"; app.fc_features := [] |}.

(** A polygon collection with one feature of geometry [gd], styled [st]
    and named [name]. *)
Definition styled_collection (gd : app.geometry_dict) (st : app.style)
  (name : string) : app.FeatureCollection :=
  {| app.fc_type := "FeatureCollection";
     app.fc_features :=
       [ {| app.f_type := "Feature";
            app.f_geometry := gd;
            app.f_properties :=
              [("style", app.PStyle st); ("name", app.PStr name)] |} ] |}.

(** The buffer of [base] at [d] metres, back in geographic coordinates. *)
Definition buffer_geometry (base : app.geom) (d : R) : app.geometry_dict :=
  app.mapping_of (app.transformed to_wgs84 (app.buffered base d)).

(** What a layer of radius [d] holds. *)
Definition layer_value (base : app.geom) (d : R) (st : app.style)
  (name : string) : option app.FeatureCollection :=
  if Rle_dec d 0 then Some empty_collection
  else Some (styled_collection (buffer_geometry base d) st name).

(** The library calls a layer of radius [d] makes. *)
Definition layer_events (base : app.geom) (d : R) : list app.event :=
  if Rle_dec d 0 then []
  else [ app.ev_buffer base d;
         app.ev_transform to_wgs84 (app.buffered base d);
         app.ev_mapping (app.transformed to_wgs84 (app.buffered base d)) ].

(** The table of section 4.3 of the specification: key, radius from the
    distances, style and name of each layer. *)
Definition layer_table
  : list (string * (app.Meta -> R) * app.style * string) :=
  [ ("ca", (fun m => app.scv_m m), app.style_ca, "Scv (Containment Area)");
    ("grb", (fun m => app.grb_m m + app.scv_m m), app.style_grb,
     "Grb (Ground Risk Buffer)");
    ("assemblies_horizon", (fun m => 1000 + app.scv_m m), app.style_ah,
     "Assemblies Horizon");
    ("adjacent_area", (fun m => app.aa_m m + app.grb_m m), app.style_aa,
     "Adjacent Area");
    ("detection_area", (fun m => app.sd_m m + app.scv_m m), app.style_sd,
     "Detection Area") ].

(** The layers of the table for the distances [m], over [base]. *)
Definition table_layers (base : app.geom) (m : app.Meta)
  : list (string * option app.FeatureCollection) :=
  map (fun row =>
         match row with
         | (key, radius, st, name) =>
             (key, layer_value base (radius m) st name)
         end)
      layer_table.

(** The library calls of a run that returns, in order. *)
Definition run_events (ds : list app.geojson) (m : app.Meta)
  : list app.event :=
  [ app.ev_from_crs "EPSG:4326" "EPSG:2056";
    app.ev_from_crs "EPSG:2056" "EPSG:4326" ]
  ++ map app.ev_shape ds
  ++ [ app.ev_unary_union (map app.shape_of ds);
       app.ev_transform to_lv95 (app.union_of (map app.shape_of ds)) ]
  ++ flat_map (fun row =>
                 match row with
                 | (_, radius, _, _) => layer_events (base_lv95 ds) (radius m)
                 end)
              layer_table.

(** The features of a request: [fg.get("features", [])]. *)
Definition feats (req : app.RunReq) : list app.feature :=
  match app.features (app.fg req) with
  | Some l => l
  | None => []
  end.

(** The distances [run] computes before it looks at the geometry. *)
Definition distances (p : app.Params) (m : app.Meta) : Prop :=
  let c := calc (app.aircraftType p) (app.prsEquipped p) in
  In (app.aircraftType p) grb.AIRCRAFTTYPS /\
  grb.get_scv c (app.v0 p) = Ok (app.scv_m m) /\
  grb.get_hcv c (app.v0 p) (app.hfg p) (app.roc p) = Ok (app.hcv_m m) /\
  grb.get_sgrb c (app.v0 p) (app.wind p) (app.cd p) (app.hfg p) (app.roc p)
  = Ok (app.grb_m m) /\
  grb.get_ddeco c (app.v0 p) (app.rod p) (app.hfg p)
    (grb.PyStr (app.opType p)) (app.cd p) = Ok (app.sd_m m) /\
  (if String.eqb (app.opType p) "BVLOS"
   then exists h : R,
       grb.get_hdeco c (app.roc p) (app.rod p) (app.hfg p) = Ok h /\
       app.hd_m m = Some h
   else app.hd_m m = None) /\
  app.aa_m m = grb.get_adjacent_area c (app.v0 p) /\
  app.ah_m m = 1000.0 /\
  app.inputs m = p.

(** The distances of the buffers applied, in the order of the calls. *)
Definition buffer_radii (tr : list app.event) : list R :=
  flat_map (fun e => match e with
                     | app.ev_buffer _ d => [d]
                     | _ => []
                     end) tr.

(** [d > 0], as [buf] tests it. *)
Definition positive (d : R) : bool :=
  if Rle_dec d 0 then false else true.

(** [x] is [y] to within [tol]. *)
Definition approx (x y tol : R) : Prop := Rabs (x - y) <= tol.


(** *** Test inputs *)

(** A flight geography of one square. *)
Definition square : app.geojson :=
  {| app.gj_type := "Polygon";
     app.gj_coordinates :=
       [[(8.54, 47.37); (8.55, 47.37); (8.55, 47.38); (8.54, 47.38);
         (8.54, 47.37)]] |}.

Definition one_feature : app.FeatureCollectionIn :=
  {| app.features := Some [ {| app.geometry := Some square |} ] |}.

Definition no_feature : app.FeatureCollectionIn :=
  {| app.features := Some [] |}.

(** The end-to-end example of the specification: rotorcraft, no PRS, VLOS,
    [hfg=120, cd=1.2, v0=15, roc=3, rod=3, wind=5]. *)
Definition example_params : app.Params :=
  {| app.hfg := 120; app.opType := "VLOS"; app.aircraftType := "rotorcraft";
     app.prsEquipped := false; app.cd := 1.2; app.v0 := 15; app.roc := 3;
     app.rod := 3; app.wind := 5 |}.

Definition example_req : app.RunReq :=
  {| app.fg := one_feature; app.params := example_params |}.

(** The same aircraft over a flight geography 10 m high, descending at
    1 m/s. *)
Definition low_params : app.Params :=
  {| app.hfg := 10; app.opType := "VLOS"; app.aircraftType := "rotorcraft";
     app.prsEquipped := false; app.cd := 1.2; app.v0 := 15; app.roc := 3;
     app.rod := 1; app.wind := 5 |}.

Definition low_req : app.RunReq :=
  {| app.fg := one_feature; app.params := low_params |}.

(** The example without a feature. *)
Definition empty_req : app.RunReq :=
  {| app.fg := no_feature; app.params := example_params |}.

(** The example without a feature, the aircraft class spelled as the
    comment on [Params.aircraftType] spells it. *)
Definition empty_req_fixed_wing : app.RunReq :=
  {| app.fg := no_feature;
     app.params :=
       {| app.hfg := 120; app.opType := "VLOS";
          app.aircraftType := "fixed-wing"; app.prsEquipped := false;
          app.cd := 1.2; app.v0 := 15; app.roc := 3; app.rod := 3;
          app.wind := 5 |} |}.

(** C3 as the specification states it: the values of the example, each
    to the precision it is given with. *)
Definition example_values_as_stated : Prop :=
  exists scv hcv sgrb : R,
    grb.get_scv (calc "rotorcraft" false) 15 = Ok scv /\
    grb.get_hcv (calc "rotorcraft" false) 15 120 3 = Ok hcv /\
    grb.get_sgrb (calc "rotorcraft" false) 15 5 1.2 120 3 = Ok sgrb /\
    approx scv 33.47 0.005 /\
    approx hcv 138.48 0.005 /\
    approx sgrb 89.73 0.005 /\
    approx (sgrb + scv) 123.2 0.05.

(** *** Definitions used by the further properties *)

(** A buffer call is applied to the projected union of the geometries
    [ds], at a positive distance; any other call passes. *)
Definition buffer_call_ok (ds : list app.geojson) (e : app.event) : Prop :=
  match e with
  | app.ev_buffer x d => x = base_lv95 ds /\ 0 < d
  | _ => True
  end.

(** The ["geometry"] entries of the features, in order. *)
Definition geometries (fs : list app.feature) : list (option app.geojson) :=
  map app.geometry fs.

(** [Hcv (v0, hfg, roc)] as the specification words it: the height of the
    flight geography, the altimetry error, the reaction distance
    ([roc trt] for a rotorcraft, [(sqrt 2 / 2) v0 trt] for a fixed wing)
    and the manoeuvre height ([0.5 v0^2 / g] for a rotorcraft,
    [0.3 v0^2 / g] for a fixed wing). *)
Definition Hcv_formula (k : grb.constants) (a : string) (v0 hfg roc : R)
  : R :=
  hfg + grb.hbaro k
  + (if string_dec a "rotorcraft" then roc * grb.trt k
     else sqrt 2 / 2 * v0 * grb.trt k)
  + (if string_dec a "rotorcraft" then 0.5 * (v0 ^ 2 / grb.g k)
     else 0.3 * (v0 ^ 2 / grb.g k)).

(** ** Arithmetic of the fallible primitives *)

Lemma pydiv_ok (x y : R) : y <> 0 -> pydiv x y = Ok (x / y).
Proof.
  intros Hy. unfold pydiv.
  destruct (Req_dec_T y 0); [contradiction | reflexivity].
Qed.

Lemma pydiv_zero (x : R) : pydiv x 0 = Raise ZeroDivisionError.
Proof.
  unfold pydiv. destruct (Req_dec_T 0 0) as [_ | H]; [reflexivity | now elim H].
Qed.

Lemma pysqrt_ok (x : R) : 0 <= x -> pysqrt x = Ok (sqrt x).
Proof.
  intros Hx. unfold pysqrt. destruct (Rlt_dec x 0); [lra | reflexivity].
Qed.

Lemma pysqrt_neg (x : R) :
  x < 0 -> pysqrt x = Raise (ValueError "math domain error").
Proof.
  intros Hx. unfold pysqrt. destruct (Rlt_dec x 0); [reflexivity | lra].
Qed.

Lemma tan_45 : tan (grb.torad 45.00) = 1.
Proof.
  unfold grb.torad. replace (45.00 * PI / 180.0) with (PI / 4) by lra.
  apply tan_PI4.
Qed.

Lemma tan_30 : tan (grb.torad 30.00) = 1 / sqrt 3.
Proof.
  unfold grb.torad. replace (30.00 * PI / 180.0) with (PI / 6) by lra.
  apply tan_PI6.
Qed.

(** ** The constructor *)

Lemma init_current (a : string) (p : bool) :
  In a grb.AIRCRAFTTYPS -> grb.__init__ "current" a p = Ok (calc a p).
Proof.
  intros Ha. unfold grb.__init__.
  destruct (in_dec string_dec a grb.AIRCRAFTTYPS);
    [reflexivity | contradiction].
Qed.

Lemma init_bad_aircraft (a : string) (p : bool) :
  ~ In a grb.AIRCRAFTTYPS ->
  grb.__init__ "current" a p =
  Raise (KeyError (grb.aircrafttype_not_in_list a)).
Proof.
  intros Ha. unfold grb.__init__.
  destruct (in_dec string_dec a grb.AIRCRAFTTYPS);
    [contradiction | reflexivity].
Qed.

Lemma init_not_current (v a : string) (p : bool) :
  v <> "current" -> grb.__init__ v a p = Raise (AttributeError "version").
Proof.
  intros Hv. unfold grb.__init__.
  destruct (String.eqb_spec v "current"); [contradiction | reflexivity].
Qed.

Lemma init_inv (v a : string) (p : bool) (c : grb.GroundRiskBufferCalc) :
  grb.__init__ v a p = Ok c ->
  v = "current" /\ In a grb.AIRCRAFTTYPS /\ c = calc a p.
Proof.
  intros H. destruct (string_dec v "current") as [-> | Hv].
  - destruct (in_dec string_dec a grb.AIRCRAFTTYPS) as [Ha | Ha].
    + rewrite (init_current a p Ha) in H. inversion H. auto.
    + rewrite (init_bad_aircraft a p Ha) in H. discriminate.
  - rewrite (init_not_current v a p Hv) in H. discriminate.
Qed.

Lemma aircraft_cases (a : string) :
  In a grb.AIRCRAFTTYPS -> a = "rotorcraft" \/ a = "fixedwing".
Proof.
  simpl. intros [H | [H | []]]; auto.
Qed.

(** ** The distances of a constructed calculator *)

Lemma g_pos : 0 < grb.g grb.CONST_3_3_0.
Proof. simpl. lra. Qed.

Lemma get_hcm_ok (a : string) (p : bool) (v0 : R) :
  grb.get_hcm (calc a p) v0 =
  Ok ((if String.eqb a "rotorcraft" then 0.5 else 0.3) * (v0 ^ 2 / 9.81)).
Proof.
  unfold grb.get_hcm. cbn [grb.aircrafttype grb.const calc].
  rewrite pydiv_ok by (pose proof g_pos; lra).
  destruct (String.eqb a "rotorcraft"); reflexivity.
Qed.

Lemma get_hcv_ok (a : string) (p : bool) (v0 hfg roc : R) :
  grb.get_hcv (calc a p) v0 hfg roc =
  Ok (hfg + 4.00 + grb.get_hrt (calc a p) v0 roc
      + (if String.eqb a "rotorcraft" then 0.5 else 0.3) * (v0 ^ 2 / 9.81)).
Proof.
  unfold grb.get_hcv. rewrite get_hcm_ok. reflexivity.
Qed.

Lemma get_scm_rotorcraft (p : bool) (v0 : R) :
  grb.get_scm (calc "rotorcraft" p) v0 = Ok (0.5 * (v0 ^ 2 / 9.81)).
Proof.
  unfold grb.get_scm.
  cbn [grb.aircrafttype grb.const calc String.eqb Ascii.eqb Bool.eqb].
  cbn [grb.roh_rotorcraft grb.g grb.CONST_3_3_0]. rewrite tan_45.
  rewrite pydiv_ok by lra. cbn [bind]. f_equal. lra.
Qed.

Lemma get_scm_fixedwing (p : bool) (v0 : R) :
  grb.get_scm (calc "fixedwing" p) v0 = Ok (v0 ^ 2 / (9.81 * (1 / sqrt 3))).
Proof.
  unfold grb.get_scm.
  cbn [grb.aircrafttype grb.const calc String.eqb Ascii.eqb Bool.eqb].
  cbn [grb.roh_fixedwing grb.g grb.CONST_3_3_0]. rewrite tan_30.
  assert (0 < sqrt 3) by (apply sqrt_lt_R0; lra).
  assert (0 < 1 / sqrt 3) by (apply Rdiv_lt_0_compat; lra).
  rewrite pydiv_ok by nra. reflexivity.
Qed.

Lemma get_sgrb_prs (a : string) (v0 vw cd hfg roc Hcv : R) :
  grb.get_hcv (calc a true) v0 hfg roc = Ok Hcv ->
  grb.get_sgrb (calc a true) v0 vw cd hfg roc = Ok (2 * v0 + vw * (Hcv / 5)).
Proof.
  intros H. unfold grb.get_sgrb. cbn [grb.prs_enabled calc].
  rewrite H. cbn [bind]. f_equal. lra.
Qed.

Lemma get_sgrb_fixedwing (a : string) (v0 vw cd hfg roc Hcv : R) :
  a <> "rotorcraft" ->
  grb.get_hcv (calc a false) v0 hfg roc = Ok Hcv ->
  grb.get_sgrb (calc a false) v0 vw cd hfg roc = Ok (Hcv + 0.5 * cd).
Proof.
  intros Ha H. unfold grb.get_sgrb. cbn [grb.prs_enabled grb.aircrafttype calc].
  destruct (String.eqb_spec a "rotorcraft"); [contradiction |].
  rewrite H. reflexivity.
Qed.

Lemma get_sgrb_rotorcraft (v0 vw cd hfg roc Hcv : R) :
  grb.get_hcv (calc "rotorcraft" false) v0 hfg roc = Ok Hcv ->
  0 <= Hcv ->
  grb.get_sgrb (calc "rotorcraft" false) v0 vw cd hfg roc =
  Ok (Rmin (v0 * sqrt (2 * Hcv / 9.81) + 0.5 * cd) (Hcv + 0.5 * cd)).
Proof.
  intros H Hpos. unfold grb.get_sgrb.
  cbn [grb.prs_enabled grb.aircrafttype calc].
  change (String.eqb "rotorcraft" "rotorcraft") with true. cbv iota.
  rewrite H. cbn [bind grb.const grb.g grb.CONST_3_3_0 calc].
  rewrite pydiv_ok by lra. cbn [bind].
  rewrite pysqrt_ok
    by (apply Rmult_le_pos; [lra | left; apply Rinv_0_lt_compat; lra]).
  cbn [bind].
  destruct (Rgt_dec (v0 * sqrt (2 * Hcv / 9.81) + 0.5 * cd) (Hcv + 0.5 * cd))
    as [Hgt | Hle]; f_equal.
  - rewrite Rmin_right; lra.
  - rewrite Rmin_left; lra.
Qed.

Lemma get_sgrb_rotorcraft_domain (v0 vw cd hfg roc Hcv : R) :
  grb.get_hcv (calc "rotorcraft" false) v0 hfg roc = Ok Hcv ->
  Hcv < 0 ->
  grb.get_sgrb (calc "rotorcraft" false) v0 vw cd hfg roc =
  Raise (ValueError "math domain error").
Proof.
  intros H Hneg. unfold grb.get_sgrb.
  cbn [grb.prs_enabled grb.aircrafttype calc].
  change (String.eqb "rotorcraft" "rotorcraft") with true. cbv iota.
  rewrite H. cbn [bind grb.const grb.g grb.CONST_3_3_0 calc].
  rewrite pydiv_ok by lra. cbn [bind].
  rewrite pysqrt_neg; [reflexivity |].
  apply Rmult_lt_reg_r with 9.81; [lra |].
  unfold Rdiv. rewrite Rmult_assoc, Rinv_l by lra. lra.
Qed.

Lemma get_te_ok (c : grb.GroundRiskBufferCalc) (rod hfg : R) :
  rod <> 0 ->
  grb.get_te c rod hfg =
  Ok (grb.tdlt (grb.const c) + grb.trt (grb.const c) + (hfg - 30) / rod).
Proof.
  intros Hrod. unfold grb.get_te. rewrite pydiv_ok by assumption. reflexivity.
Qed.

Lemma get_ddeco_vlos (a : string) (p : bool) (v0 rod hfg cd : R)
  (op : grb.pyval) :
  rod <> 0 ->
  grb.is_BVLOS op = false ->
  grb.get_ddeco (calc a p) v0 rod hfg op cd =
  Ok (Rmin (((25.00 + v0) * (1.00 + (hfg - 30) / rod) + ALOS a cd) / 0.3) 5000).
Proof.
  intros Hrod Hop. unfold grb.get_ddeco. rewrite Hop.
  rewrite pydiv_ok by assumption.
  cbn [bind grb.const grb.aircrafttype calc grb.trt grb.Vtr grb.CONST_3_3_0].
  assert (HA : (if String.eqb a "rotorcraft" then 327 * cd + 20
                else 490 * cd + 30) = ALOS a cd).
  { unfold ALOS. destruct (String.eqb_spec a "rotorcraft");
      destruct (string_dec a "rotorcraft"); congruence. }
  rewrite HA.
  set (D := ((25.00 + v0) * (1.00 + (hfg - 30) / rod) + ALOS a cd) / 0.3).
  destruct (Rgt_dec D 5000); f_equal.
  - rewrite Rmin_right; lra.
  - rewrite Rmin_left; lra.
Qed.

Lemma get_ddeco_bvlos (a : string) (p : bool) (v0 rod hfg cd : R)
  (op : grb.pyval) :
  rod <> 0 ->
  grb.is_BVLOS op = true ->
  grb.get_ddeco (calc a p) v0 rod hfg op cd =
  Ok ((15.00 + 1.00 + (hfg - 30) / rod) * (25.00 + v0)).
Proof.
  intros Hrod Hop. unfold grb.get_ddeco. rewrite Hop.
  rewrite get_te_ok by assumption. reflexivity.
Qed.

Lemma get_ddeco_zero_rod (c : grb.GroundRiskBufferCalc) (v0 hfg cd : R)
  (op : grb.pyval) :
  grb.get_ddeco c v0 0 hfg op cd = Raise ZeroDivisionError.
Proof.
  unfold grb.get_ddeco, grb.get_te. rewrite pydiv_zero.
  destruct (grb.is_BVLOS op); reflexivity.
Qed.

Lemma adjacent_area_bounds (c : grb.GroundRiskBufferCalc) (v0 : R) :
  5000 <= grb.get_adjacent_area c v0 <= 35000.
Proof.
  unfold grb.get_adjacent_area, Rmax, Rmin.
  destruct (Rle_dec (v0 * 180) 35000);
    destruct (Rle_dec 5000 _); lra.
Qed.

(** ** The claims on the distance calculator *)

(** C2 (the code departs from the claim).  The version key ["3.3.0"] is a
    row of the constants table, yet constructing the calculator with it
    raises [AttributeError]: [self.version] is assigned only for the
    version ["current"], and is read on the next line in every case. *)
Theorem init_known_version_raises :
  getitem grb.CONST "3.3.0" = Ok grb.CONST_3_3_0 /\
  grb.__init__ "3.3.0" "rotorcraft" false = Raise (AttributeError "version").
Proof.
  split; reflexivity.
Qed.

Lemma get_hcv_formula (a : string) (p : bool) (v0 hfg roc H : R) :
  grb.get_hcv (calc a p) v0 hfg roc = Ok H ->
  H = Hcv_formula grb.CONST_3_3_0 a v0 hfg roc.
Proof.
  rewrite get_hcv_ok. intros E. injection E as <-.
  unfold Hcv_formula, grb.get_hrt.
  cbn [grb.aircrafttype grb.const calc grb.trt grb.hbaro grb.g
    grb.CONST_3_3_0].
  destruct (String.eqb_spec a "rotorcraft");
    destruct (string_dec a "rotorcraft"); try contradiction; lra.
Qed.

(** C4, as stated, fails.  For a rotorcraft without PRS over a flight
    geography 200 m below the ground reference the containment height is
    negative, and the distance is not the minimum the claim gives:
    [math.sqrt] raises [ValueError]. *)
Lemma get_sgrb_negative_height_raises :
  grb.__init__ "current" "rotorcraft" false = Ok (calc "rotorcraft" false) /\
  (exists Hcv : R,
      grb.get_hcv (calc "rotorcraft" false) 15 (- 200) 3 = Ok Hcv /\
      Hcv < 0) /\
  grb.get_sgrb (calc "rotorcraft" false) 15 5 1.2 (- 200) 3 =
  Raise (ValueError "math domain error").
Proof.
  assert (Hh : grb.get_hcv (calc "rotorcraft" false) 15 (- 200) 3 =
               Ok (- 200 + 4.00 + 3 * 1.00 + 0.5 * (15 ^ 2 / 9.81))).
  { rewrite get_hcv_ok. reflexivity. }
  assert (Hneg : - 200 + 4.00 + 3 * 1.00 + 0.5 * (15 ^ 2 / 9.81) < 0) by lra.
  split; [reflexivity |]. split.
  - eexists. split; [exact Hh | exact Hneg].
  - apply (get_sgrb_rotorcraft_domain 15 5 1.2 (- 200) 3 _ Hh Hneg).
Qed.

(** C4, amended.  Wherever the containment height [Hcv] is returned, it
    is [hfg + hbaro] plus the reaction distance and the manoeuvre height
    of the aircraft class, and the ground-risk-buffer distance of a
    constructed calculator follows three branches in this order: with a
    PRS, [2 v0 + wind (Hcv / 5)] for either aircraft class; else for a
    rotorcraft the smaller of [v0 sqrt (2 Hcv / g) + 0.5 cd] and
    [Hcv + 0.5 cd] when [Hcv] is not negative, and the [ValueError] of
    [math.sqrt] when it is; else, for a fixed wing, [Hcv + 0.5 cd]. *)
Theorem get_sgrb_three_branches :
  forall (version a : string) (prs : bool) (c : grb.GroundRiskBufferCalc)
         (v0 wind cd hfg roc Hcv : R),
    grb.__init__ version a prs = Ok c ->
    grb.get_hcv c v0 hfg roc = Ok Hcv ->
    Hcv = Hcv_formula (grb.const c) a v0 hfg roc /\
    (prs = true ->
     grb.get_sgrb c v0 wind cd hfg roc = Ok (2 * v0 + wind * (Hcv / 5))) /\
    (prs = false -> a = "rotorcraft" -> 0 <= Hcv ->
     grb.get_sgrb c v0 wind cd hfg roc =
     Ok (Rmin (v0 * sqrt (2 * Hcv / grb.g (grb.const c)) + 0.5 * cd)
              (Hcv + 0.5 * cd))) /\
    (prs = false -> a = "rotorcraft" -> Hcv < 0 ->
     grb.get_sgrb c v0 wind cd hfg roc =
     Raise (ValueError "math domain error")) /\
    (prs = false -> a = "fixedwing" ->
     grb.get_sgrb c v0 wind cd hfg roc = Ok (Hcv + 0.5 * cd)).
Proof.
  intros version a prs c v0 wind cd hfg roc Hcv Hinit Hh.
  apply init_inv in Hinit. destruct Hinit as (_ & _ & ->).
  split; [exact (get_hcv_formula a prs v0 hfg roc Hcv Hh) |].
  repeat split.
  - intros ->. apply get_sgrb_prs, Hh.
  - intros -> -> Hpos.
    apply (get_sgrb_rotorcraft v0 wind cd hfg roc Hcv Hh Hpos).
  - intros -> -> Hneg.
    apply (get_sgrb_rotorcraft_domain v0 wind cd hfg roc Hcv Hh Hneg).
  - intros -> ->. apply get_sgrb_fixedwing; [discriminate | exact Hh].
Qed.

Lemma get_sgrb_three_branches_witness :
  exists Hcv : R,
    grb.get_hcv (calc "rotorcraft" false) 15 120 3 = Ok Hcv /\
    Hcv = Hcv_formula grb.CONST_3_3_0 "rotorcraft" 15 120 3 /\
    0 <= Hcv /\
    grb.get_sgrb (calc "rotorcraft" false) 15 5 1.2 120 3 =
    Ok (Rmin (15 * sqrt (2 * Hcv / grb.g (grb.const (calc "rotorcraft" false)))
              + 0.5 * 1.2)
             (Hcv + 0.5 * 1.2)).
Proof.
  assert (Hh : grb.get_hcv (calc "rotorcraft" false) 15 120 3 =
               Ok (120 + 4.00 + 3 * 1.00 + 0.5 * (15 ^ 2 / 9.81))).
  { rewrite get_hcv_ok. reflexivity. }
  assert (Hpos : 0 <= 120 + 4.00 + 3 * 1.00 + 0.5 * (15 ^ 2 / 9.81)) by lra.
  destruct (get_sgrb_three_branches "current" "rotorcraft" false
              (calc "rotorcraft" false) 15 5 1.2 120 3 _ eq_refl Hh)
    as (Hf & _ & Hrot & _).
  eexists. split; [exact Hh |]. split; [exact Hf |]. split; [exact Hpos |].
  apply Hrot; [reflexivity | reflexivity | exact Hpos].
Defined.

(** C6.  A VLOS computation of [Ddeco] (any operation type other than
    ["BVLOS"]) with [rod > 0] returns [min (DLOS / 0.3, 5000)], where
    [DLOS = (Vtr + v0) (trt + (hfg - 30) / rod) + ALOS] and [ALOS] is
    [327 cd + 20] for a rotorcraft and [490 cd + 30] for a fixed wing;
    the result never exceeds 5000. *)
Theorem get_ddeco_vlos_capped :
  forall (version a : string) (prs : bool) (c : grb.GroundRiskBufferCalc)
         (v0 rod hfg cd : R) (op : grb.pyval),
    grb.__init__ version a prs = Ok c ->
    0 < rod ->
    grb.is_BVLOS op = false ->
    let DLOS :=
      (grb.Vtr (grb.const c) + v0)
      * (grb.trt (grb.const c) + (hfg - 30) / rod) + ALOS a cd in
    grb.get_ddeco c v0 rod hfg op cd = Ok (Rmin (DLOS / 0.3) 5000) /\
    (forall d : R, grb.get_ddeco c v0 rod hfg op cd = Ok d -> d <= 5000).
Proof.
  intros version a prs c v0 rod hfg cd op Hinit Hrod Hop DLOS.
  apply init_inv in Hinit. destruct Hinit as (_ & _ & ->).
  assert (E : grb.get_ddeco (calc a prs) v0 rod hfg op cd =
              Ok (Rmin (DLOS / 0.3) 5000)).
  { apply get_ddeco_vlos; [lra | assumption]. }
  split; [exact E |].
  intros d Hd. rewrite E in Hd. inversion Hd. apply Rmin_r.
Qed.

Lemma get_ddeco_vlos_capped_witness :
  let DLOS :=
    (grb.Vtr (grb.const (calc "rotorcraft" false)) + 15)
    * (grb.trt (grb.const (calc "rotorcraft" false)) + (120 - 30) / 3)
    + ALOS "rotorcraft" 1.2 in
  grb.get_ddeco (calc "rotorcraft" false) 15 3 120 (grb.PyStr "VLOS") 1.2 =
  Ok (Rmin (DLOS / 0.3) 5000) /\
  (forall d : R,
      grb.get_ddeco (calc "rotorcraft" false) 15 3 120 (grb.PyStr "VLOS") 1.2
      = Ok d -> d <= 5000).
Proof.
  apply (get_ddeco_vlos_capped "current" "rotorcraft" false
           (calc "rotorcraft" false) 15 3 120 1.2 (grb.PyStr "VLOS")).
  - reflexivity.
  - lra.
  - reflexivity.
Defined.

(** C7.  For [rod > 0] the detection time window is exactly
    [tdlt + trt + (hfg - 30) / rod], with no lower clamp: below
    [hfg = 30] it is negative as soon as [rod < (30 - hfg) / 16], for
    instance at [hfg = 0] and [rod = 1]. *)
Theorem get_te_unclamped :
  forall (version a : string) (prs : bool) (c : grb.GroundRiskBufferCalc),
    grb.__init__ version a prs = Ok c ->
    (forall rod hfg : R,
        0 < rod ->
        grb.get_te c rod hfg =
        Ok (grb.tdlt (grb.const c) + grb.trt (grb.const c)
            + (hfg - 30) / rod)) /\
    (forall rod hfg : R,
        0 < rod -> hfg < 30 -> rod < (30 - hfg) / 16 ->
        exists t : R, grb.get_te c rod hfg = Ok t /\ t < 0) /\
    (exists t : R, grb.get_te c 1 0 = Ok t /\ t < 0).
Proof.
  intros version a prs c Hinit.
  apply init_inv in Hinit. destruct Hinit as (_ & _ & ->).
  assert (Hneg : forall rod hfg : R,
             0 < rod -> hfg < 30 -> rod < (30 - hfg) / 16 ->
             exists t : R, grb.get_te (calc a prs) rod hfg = Ok t /\ t < 0).
  { intros rod hfg Hrod Hhfg Hsmall.
    eexists. split; [apply get_te_ok; lra |].
    cbn [grb.const calc grb.tdlt grb.trt grb.CONST_3_3_0].
    assert (Hq : (hfg - 30) / rod < - 16).
    { apply Rmult_lt_reg_r with rod; [assumption |].
      unfold Rdiv. rewrite Rmult_assoc, Rinv_l by lra. lra. }
    lra. }
  split; [| split].
  - intros rod hfg Hrod. apply get_te_ok. lra.
  - exact Hneg.
  - apply Hneg; lra.
Qed.

Lemma get_te_unclamped_witness :
  grb.get_te (calc "rotorcraft" false) 3 120 =
  Ok (grb.tdlt (grb.const (calc "rotorcraft" false))
      + grb.trt (grb.const (calc "rotorcraft" false))
      + (120 - 30) / 3) /\
  (exists t : R, grb.get_te (calc "rotorcraft" false) 1 10 = Ok t /\ t < 0).
Proof.
  destruct (get_te_unclamped "current" "rotorcraft" false
              (calc "rotorcraft" false) eq_refl) as (Hall & Hneg & _).
  split.
  - apply Hall. lra.
  - apply Hneg; lra.
Defined.

(** C9.  The adjacent-area radius is [clamp (v0 * 180, 5000, 35000)]; it
    lies in [[5000, 35000]] and does not decrease when [v0] grows. *)
Theorem get_adjacent_area_clamp_monotone :
  forall (c : grb.GroundRiskBufferCalc) (v0a v0b : R),
    grb.get_adjacent_area c v0a = clamp (v0a * 180) 5000 35000 /\
    5000 <= grb.get_adjacent_area c v0a <= 35000 /\
    (v0a <= v0b ->
     grb.get_adjacent_area c v0a <= grb.get_adjacent_area c v0b).
Proof.
  intros c v0a v0b. split; [| split].
  - unfold grb.get_adjacent_area, clamp, Rmax, Rmin.
    destruct (Rle_dec (v0a * 180) 35000);
      destruct (Rle_dec 5000 _);
      destruct (Rlt_dec (v0a * 180) 5000);
      try destruct (Rlt_dec 35000 (v0a * 180)); lra.
  - apply adjacent_area_bounds.
  - intros Hle. unfold grb.get_adjacent_area, Rmax, Rmin.
    destruct (Rle_dec (v0a * 180) 35000);
      destruct (Rle_dec (v0b * 180) 35000);
      repeat destruct (Rle_dec 5000 _); lra.
Qed.

Lemma get_adjacent_area_clamp_monotone_witness :
  grb.get_adjacent_area (calc "rotorcraft" false) 15 =
  clamp (15 * 180) 5000 35000 /\
  5000 <= grb.get_adjacent_area (calc "rotorcraft" false) 15 <= 35000 /\
  grb.get_adjacent_area (calc "rotorcraft" false) 15 <=
  grb.get_adjacent_area (calc "rotorcraft" false) 40.
Proof.
  destruct (get_adjacent_area_clamp_monotone (calc "rotorcraft" false) 15 40)
    as (Hclamp & Hbounds & Hmono).
  split; [exact Hclamp |]. split; [exact Hbounds |]. apply Hmono. lra.
Defined.

(** ** Logged computations *)

Lemma iobind_ok {A B : Type} (m : app.io A) (k : A -> app.io B)
  (tr1 tr2 : list app.event) (a : A) (r : result B) :
  m = (tr1, Ok a) -> k a = (tr2, r) -> app.iobind m k = (tr1 ++ tr2, r).
Proof.
  intros -> Hk. unfold app.iobind. rewrite Hk. reflexivity.
Qed.

Lemma iobind_raise {A B : Type} (m : app.io A) (k : A -> app.io B)
  (tr : list app.event) (e : exn) :
  m = (tr, Raise e) -> app.iobind m k = (tr, Raise e).
Proof.
  intros ->. reflexivity.
Qed.

Lemma iobind_ok_inv {A B : Type} (m : app.io A) (k : A -> app.io B)
  (tr : list app.event) (b : B) :
  app.iobind m k = (tr, Ok b) ->
  exists (tr1 : list app.event) (a : A) (tr2 : list app.event),
    m = (tr1, Ok a) /\ k a = (tr2, Ok b) /\ tr = tr1 ++ tr2.
Proof.
  unfold app.iobind. destruct m as [tr1 [a | e]]; [| discriminate].
  destruct (k a) as [tr2 r] eqn:Hk. intros H. inversion H; subst.
  exists tr1, a, tr2. auto.
Qed.

Lemma lift_ok_inv {A : Type} (r : result A) (tr : list app.event) (a : A) :
  app.lift r = (tr, Ok a) -> r = Ok a /\ tr = [].
Proof.
  unfold app.lift. intros H. inversion H. auto.
Qed.

Lemma call_inv {A : Type} (e : app.event) (a a' : A) (tr : list app.event) :
  app.call e a = (tr, Ok a') -> a' = a /\ tr = [e].
Proof.
  unfold app.call. intros H. inversion H. auto.
Qed.

(** ** The helpers of [run] *)

Lemma shapes_ok (fs : list app.feature) (ds : list app.geojson) :
  map app.geometry fs = map Some ds ->
  app.shapes fs = (map app.ev_shape ds, Ok (map app.shape_of ds)).
Proof.
  revert ds. induction fs as [| f fs IH]; intros [| d ds] H;
    try discriminate; [reflexivity |].
  simpl in H. injection H as Hf Hfs.
  cbn [app.shapes]. rewrite Hf.
  apply (iobind_ok _ _ [] (map app.ev_shape (d :: ds)) d); [reflexivity |].
  apply (iobind_ok _ _ [app.ev_shape d] (map app.ev_shape ds) (app.shape_of d));
    [reflexivity |].
  rewrite <- (app_nil_r (map app.ev_shape ds)).
  apply (iobind_ok _ _ _ [] (map app.shape_of ds)); [apply IH, Hfs |].
  reflexivity.
Qed.

Lemma shapes_inv (fs : list app.feature) (tr : list app.event)
  (xs : list app.geom) :
  app.shapes fs = (tr, Ok xs) ->
  exists ds : list app.geojson,
    map app.geometry fs = map Some ds /\
    xs = map app.shape_of ds /\ tr = map app.ev_shape ds.
Proof.
  revert tr xs. induction fs as [| f fs IH]; intros tr xs H.
  - inversion H. exists []. auto.
  - cbn [app.shapes] in H.
    apply iobind_ok_inv in H. destruct H as (tr1 & d & tr2 & H1 & H2 & ->).
    destruct (app.geometry f) as [d' |] eqn:Hf; [| discriminate].
    inversion H1; subst. clear H1.
    apply iobind_ok_inv in H2. destruct H2 as (tr3 & x & tr4 & H3 & H4 & ->).
    apply call_inv in H3. destruct H3 as [-> ->].
    apply iobind_ok_inv in H4. destruct H4 as (tr5 & xs' & tr6 & H5 & H6 & ->).
    inversion H6; subst. clear H6.
    destruct (IH _ _ H5) as (ds & Hds & -> & ->).
    exists (d :: ds). cbn [map]. rewrite Hf, Hds, app_nil_r. auto.
Qed.

Lemma layer_spec (base : app.geom) (d : R) (st : app.style) (name : string) :
  app.layer base to_wgs84 d st name =
  (layer_events base d, Ok (layer_value base d st name)).
Proof.
  unfold app.layer, app.feature_or_none, app.buf, layer_events, layer_value.
  destruct (Rle_dec d 0); reflexivity.
Qed.

Lemma iobind_pair_ok {A B : Type} (tr : list app.event) (a : A)
  (k : A -> app.io B) :
  app.iobind (tr, Ok a) k = (tr ++ fst (k a), snd (k a)).
Proof.
  unfold app.iobind. destruct (k a); reflexivity.
Qed.

Lemma iobind_lift_ok {A B : Type} (a : A) (k : A -> app.io B) :
  app.iobind (app.lift (Ok a)) k = k a.
Proof.
  unfold app.lift. rewrite iobind_pair_ok. destruct (k a); reflexivity.
Qed.

Lemma iobind_ret {A B : Type} (a : A) (k : A -> app.io B) :
  app.iobind (app.ret a) k = k a.
Proof.
  exact (iobind_lift_ok a k).
Qed.

Lemma iobind_call {A B : Type} (e : app.event) (a : A) (k : A -> app.io B) :
  app.iobind (app.call e a) k = (e :: fst (k a), snd (k a)).
Proof.
  unfold app.call. rewrite iobind_pair_ok. reflexivity.
Qed.

(** ** [run] *)

Lemma get_ddeco_ok_rod (c : grb.GroundRiskBufferCalc) (v0 rod hfg cd d : R)
  (op : grb.pyval) :
  grb.get_ddeco c v0 rod hfg op cd = Ok d -> rod <> 0.
Proof.
  intros H ->. rewrite get_ddeco_zero_rod in H. discriminate.
Qed.

(** A run whose distances are computed and whose features all carry a
    geometry returns the distances and the layers of the table. *)
Lemma run_ok (req : app.RunReq) (m : app.Meta) (f : app.feature)
  (fs : list app.feature) (ds : list app.geojson) :
  distances (app.params req) m ->
  feats req = f :: fs ->
  map app.geometry (f :: fs) = map Some ds ->
  app.run req =
  (run_events ds m,
   Ok {| app.meta := m; app.layers := table_layers (base_lv95 ds) m |}).
Proof.
  intros Hd Hfeats Hgeo.
  destruct m as [scv hcv sgrb ah sd hd aa inp].
  unfold distances in Hd. cbn [app.scv_m app.hcv_m app.grb_m app.ah_m
    app.sd_m app.hd_m app.aa_m app.inputs] in Hd.
  destruct Hd as (Ha & Hscv & Hhcv & Hsgrb & Hsd & Hhd & -> & -> & ->).
  pose proof (get_ddeco_ok_rod _ _ _ _ _ _ _ Hsd) as Hrod.
  unfold app.run. cbv zeta.
  rewrite (init_current _ _ Ha), iobind_lift_ok.
  rewrite Hscv, iobind_lift_ok, Hhcv, iobind_lift_ok, Hsgrb, iobind_lift_ok.
  rewrite (get_ddeco_vlos _ _ _ _ _ _ (grb.PyFloat _) Hrod eq_refl).
  rewrite iobind_lift_ok, Hsd, iobind_lift_ok.
  assert (Hhd' :
    (if String.eqb (app.opType (app.params req)) "BVLOS"
     then app.iobind
            (app.lift
               (grb.get_hdeco
                  (calc (app.aircraftType (app.params req))
                     (app.prsEquipped (app.params req)))
                  (app.roc (app.params req)) (app.rod (app.params req))
                  (app.hfg (app.params req))))
            (fun h => app.ret (Some h))
     else app.ret None) = app.ret hd).
  { destruct (String.eqb (app.opType (app.params req)) "BVLOS").
    - destruct Hhd as (h & Hh & ->). rewrite Hh, iobind_lift_ok. reflexivity.
    - rewrite Hhd. reflexivity. }
  rewrite Hhd', iobind_ret.
  unfold app.from_crs. rewrite !iobind_call.
  unfold feats in Hfeats. rewrite Hfeats.
  rewrite (shapes_ok _ _ Hgeo), iobind_pair_ok.
  unfold app.unary_union, app.transform. rewrite !iobind_call.
  fold to_lv95. fold to_wgs84. fold (base_lv95 ds).
  rewrite !layer_spec, !iobind_pair_ok.
  cbn [fst snd app.ret].
  unfold run_events, table_layers, layer_table.
  cbn [flat_map map app.scv_m app.grb_m app.aa_m app.sd_m].
  rewrite !app_nil_r.
  replace (1000.0 + scv) with (1000 + scv) by lra.
  reflexivity.
Qed.

Ltac io_step H H1 x :=
  let tr1 := fresh "tr" in
  let tr2 := fresh "tr" in
  apply iobind_ok_inv in H;
  destruct H as (tr1 & x & tr2 & H1 & H & ->).

Ltac lift_step H H1 x :=
  io_step H H1 x; apply lift_ok_inv in H1; destruct H1 as [H1 ->].

(** Conversely, a run that returns has computed the distances, found a
    feature, and read a geometry from every feature. *)
Lemma run_inv (req : app.RunReq) (tr : list app.event) (resp : app.Response) :
  app.run req = (tr, Ok resp) ->
  exists (f : app.feature) (fs : list app.feature) (ds : list app.geojson),
    distances (app.params req) (app.meta resp) /\
    feats req = f :: fs /\
    map app.geometry (f :: fs) = map Some ds /\
    tr = run_events ds (app.meta resp) /\
    app.layers resp = table_layers (base_lv95 ds) (app.meta resp).
Proof.
  intros H. pose proof H as H0.
  unfold app.run in H. cbv zeta in H.
  lift_step H Hinit c. apply init_inv in Hinit. destruct Hinit as (_ & Ha & ->).
  lift_step H Hscv scv. lift_step H Hhcv hcv. lift_step H Hsgrb sgrb.
  lift_step H Hsd0 sd0. lift_step H Hsd sd.
  io_step H Hhd hdv.
  assert (Hhd' :
    if String.eqb (app.opType (app.params req)) "BVLOS"
    then exists h : R,
        grb.get_hdeco
          (calc (app.aircraftType (app.params req))
             (app.prsEquipped (app.params req)))
          (app.roc (app.params req)) (app.rod (app.params req))
          (app.hfg (app.params req)) = Ok h /\ hdv = Some h
    else hdv = None).
  { destruct (String.eqb (app.opType (app.params req)) "BVLOS").
    - lift_step Hhd Hh h. inversion Hhd. exists h. auto.
    - inversion Hhd. reflexivity. }
  clear Hhd.
  io_step H Hc1 t1. io_step H Hc2 t2.
  destruct (app.features (app.fg req)) as [[| f fs] |] eqn:Hfeats;
    try discriminate.
  io_step H Hshapes xs.
  destruct (shapes_inv _ _ _ Hshapes) as (ds & Hgeo & _ & _).
  clear H Hshapes Hc1 Hc2.
  set (m := {| app.scv_m := scv; app.hcv_m := hcv; app.grb_m := sgrb;
               app.ah_m := 1000.0; app.sd_m := sd; app.hd_m := hdv;
               app.aa_m :=
                 grb.get_adjacent_area
                   (calc (app.aircraftType (app.params req))
                      (app.prsEquipped (app.params req)))
                   (app.v0 (app.params req));
               app.inputs := app.params req |}).
  assert (Hd : distances (app.params req) m).
  { unfold distances. cbn [m app.scv_m app.hcv_m app.grb_m app.ah_m
      app.sd_m app.hd_m app.aa_m app.inputs]. repeat split; assumption. }
  assert (Hf : feats req = f :: fs)
    by (unfold feats; rewrite Hfeats; reflexivity).
  rewrite (run_ok req m f fs ds Hd Hf Hgeo) in H0.
  inversion H0; subst. exists f, fs, ds.
  cbn [app.meta app.layers]. auto.
Qed.

Lemma get_scv_ok (a : string) (p : bool) (v0 : R) :
  In a grb.AIRCRAFTTYPS ->
  exists scv : R, grb.get_scv (calc a p) v0 = Ok scv.
Proof.
  intros Ha. unfold grb.get_scv.
  destruct (aircraft_cases a Ha) as [-> | ->].
  - rewrite get_scm_rotorcraft. eexists. reflexivity.
  - rewrite get_scm_fixedwing. eexists. reflexivity.
Qed.

Lemma get_sgrb_ok (a : string) (p : bool) (v0 vw cd hfg roc Hcv : R) :
  In a grb.AIRCRAFTTYPS ->
  grb.get_hcv (calc a p) v0 hfg roc = Ok Hcv ->
  (p = false -> a = "rotorcraft" -> 0 <= Hcv) ->
  exists sgrb : R, grb.get_sgrb (calc a p) v0 vw cd hfg roc = Ok sgrb.
Proof.
  intros Ha H Hdom. destruct p.
  - eexists. apply get_sgrb_prs, H.
  - destruct (aircraft_cases a Ha) as [-> | ->].
    + eexists. apply get_sgrb_rotorcraft; [exact H | auto].
    + eexists. apply get_sgrb_fixedwing; [discriminate | exact H].
Qed.

Lemma get_ddeco_ok (a : string) (p : bool) (v0 rod hfg cd : R)
  (op : grb.pyval) :
  rod <> 0 -> exists d : R, grb.get_ddeco (calc a p) v0 rod hfg op cd = Ok d.
Proof.
  intros Hrod. destruct (grb.is_BVLOS op) eqn:Hop.
  - eexists. apply get_ddeco_bvlos; assumption.
  - eexists. apply get_ddeco_vlos; assumption.
Qed.

(** The distances are computed for a known aircraft class, a rate of
    descent other than zero and, for a rotorcraft without PRS, a
    containment height that is not negative. *)
Lemma distances_exist (p : app.Params) (Hcv : R) :
  In (app.aircraftType p) grb.AIRCRAFTTYPS ->
  app.rod p <> 0 ->
  grb.get_hcv (calc (app.aircraftType p) (app.prsEquipped p))
    (app.v0 p) (app.hfg p) (app.roc p) = Ok Hcv ->
  (app.prsEquipped p = false -> app.aircraftType p = "rotorcraft" ->
   0 <= Hcv) ->
  exists m : app.Meta, distances p m.
Proof.
  intros Ha Hrod Hhcv Hdom.
  destruct (get_scv_ok _ (app.prsEquipped p) (app.v0 p) Ha) as [scv Hscv].
  destruct (get_sgrb_ok _ _ (app.v0 p) (app.wind p) (app.cd p) _ _ _
              Ha Hhcv Hdom) as [sgrb Hsgrb].
  destruct (get_ddeco_ok (app.aircraftType p) (app.prsEquipped p) (app.v0 p)
              _ (app.hfg p) (app.cd p) (grb.PyStr (app.opType p)) Hrod)
    as [sd Hsd].
  assert (Hhd : exists hd : option R,
             if String.eqb (app.opType p) "BVLOS"
             then exists h : R,
                 grb.get_hdeco (calc (app.aircraftType p) (app.prsEquipped p))
                   (app.roc p) (app.rod p) (app.hfg p) = Ok h /\ hd = Some h
             else hd = None).
  { destruct (String.eqb (app.opType p) "BVLOS").
    - unfold grb.get_hdeco. rewrite get_te_ok by assumption.
      eexists. eexists. split; reflexivity.
    - exists None. reflexivity. }
  destruct Hhd as [hd Hhd].
  exists {| app.scv_m := scv; app.hcv_m := Hcv; app.grb_m := sgrb;
            app.ah_m := 1000.0; app.sd_m := sd; app.hd_m := hd;
            app.aa_m :=
              grb.get_adjacent_area
                (calc (app.aircraftType p) (app.prsEquipped p)) (app.v0 p);
            app.inputs := p |}.
  unfold distances. cbn [app.scv_m app.hcv_m app.grb_m app.ah_m app.sd_m
    app.hd_m app.aa_m app.inputs]. repeat split; assumption.
Qed.

(** With no feature, a run whose distances are computed raises the 400
    error after building the two transformers, and nothing else. *)
Lemma run_no_features (req : app.RunReq) (m : app.Meta) :
  distances (app.params req) m ->
  feats req = [] ->
  app.run req =
  ([ app.ev_from_crs "EPSG:4326" "EPSG:2056";
     app.ev_from_crs "EPSG:2056" "EPSG:4326" ],
   Raise (HTTPException 400 "No features found in FG GeoJSON.")).
Proof.
  intros Hd Hfeats.
  destruct m as [scv hcv sgrb ah sd hd aa inp].
  unfold distances in Hd. cbn [app.scv_m app.hcv_m app.grb_m app.ah_m
    app.sd_m app.hd_m app.aa_m app.inputs] in Hd.
  destruct Hd as (Ha & Hscv & Hhcv & Hsgrb & Hsd & Hhd & -> & -> & ->).
  pose proof (get_ddeco_ok_rod _ _ _ _ _ _ _ Hsd) as Hrod.
  unfold app.run. cbv zeta.
  rewrite (init_current _ _ Ha), iobind_lift_ok.
  rewrite Hscv, iobind_lift_ok, Hhcv, iobind_lift_ok, Hsgrb, iobind_lift_ok.
  rewrite (get_ddeco_vlos _ _ _ _ _ _ (grb.PyFloat _) Hrod eq_refl).
  rewrite iobind_lift_ok, Hsd, iobind_lift_ok.
  assert (Hhd' :
    (if String.eqb (app.opType (app.params req)) "BVLOS"
     then app.iobind
            (app.lift
               (grb.get_hdeco
                  (calc (app.aircraftType (app.params req))
                     (app.prsEquipped (app.params req)))
                  (app.roc (app.params req)) (app.rod (app.params req))
                  (app.hfg (app.params req))))
            (fun h => app.ret (Some h))
     else app.ret None) = app.ret hd).
  { destruct (String.eqb (app.opType (app.params req)) "BVLOS").
    - destruct Hhd as (h & Hh & ->). rewrite Hh, iobind_lift_ok. reflexivity.
    - rewrite Hhd. reflexivity. }
  rewrite Hhd', iobind_ret.
  unfold app.from_crs. rewrite !iobind_call.
  unfold feats in Hfeats. rewrite Hfeats. reflexivity.
Qed.

(** An aircraft class outside [AIRCRAFTTYPS] ends the run in the
    constructor, whatever the geometry. *)
Lemma run_bad_aircraft (req : app.RunReq) :
  ~ In (app.aircraftType (app.params req)) grb.AIRCRAFTTYPS ->
  app.run req =
  ([], Raise (KeyError (grb.aircrafttype_not_in_list
                         (app.aircraftType (app.params req))))).
Proof.
  intros Ha. unfold app.run. cbv zeta.
  rewrite (init_bad_aircraft _ _ Ha). reflexivity.
Qed.

(** ** The end-to-end example *)

Lemma sqrt_between (a b x : R) :
  0 <= a -> a * a <= x -> x <= b * b -> 0 <= b -> a <= sqrt x <= b.
Proof.
  intros Ha Hax Hxb Hb. split.
  - rewrite <- (sqrt_square a Ha). apply sqrt_le_1_alt, Hax.
  - rewrite <- (sqrt_square b Hb). apply sqrt_le_1_alt, Hxb.
Qed.

(** The distances of the example, to four decimals. *)
Lemma example_distances :
  exists scv hcv sgrb : R,
    grb.get_scv (calc "rotorcraft" false) 15 = Ok scv /\
    grb.get_hcv (calc "rotorcraft" false) 15 120 3 = Ok hcv /\
    grb.get_sgrb (calc "rotorcraft" false) 15 5 1.2 120 3 = Ok sgrb /\
    33.4678 <= scv <= 33.4679 /\
    138.4678 <= hcv <= 138.4679 /\
    80.2977 <= sgrb <= 80.2979.
Proof.
  assert (Hhcv : grb.get_hcv (calc "rotorcraft" false) 15 120 3 =
                 Ok (120 + 4.00 + 3 * 1.00 + 0.5 * (15 ^ 2 / 9.81))).
  { rewrite get_hcv_ok. reflexivity. }
  set (hcv := 120 + 4.00 + 3 * 1.00 + 0.5 * (15 ^ 2 / 9.81)) in *.
  assert (Bh : 138.4678 <= hcv <= 138.4679) by (unfold hcv; lra).
  assert (Bs : 5.31318 <= sqrt (2 * hcv / 9.81) <= 5.31319).
  { apply sqrt_between; lra. }
  exists (3.00 + 3.00 + 1.00 + 1.00 * 15 + 0.5 * (15 ^ 2 / 9.81)), hcv,
    (15 * sqrt (2 * hcv / 9.81) + 0.5 * 1.2).
  split; [| split; [exact Hhcv | split; [| split; [| split]]]].
  - unfold grb.get_scv. rewrite get_scm_rotorcraft. reflexivity.
  - rewrite (get_sgrb_rotorcraft 15 5 1.2 120 3 hcv Hhcv) by lra.
    f_equal. apply Rmin_left. lra.
  - lra.
  - exact Bh.
  - lra.
Qed.

Lemma approx_between (x y tol lo hi : R) :
  lo <= x <= hi -> y - tol <= lo -> hi <= y + tol -> approx x y tol.
Proof.
  intros Hx Hlo Hhi. unfold approx, Rabs. destruct (Rcase_abs (x - y)); lra.
Qed.

Lemma approx_inv (x y tol : R) : approx x y tol -> y - tol <= x <= y + tol.
Proof.
  unfold approx, Rabs. destruct (Rcase_abs (x - y)); lra.
Qed.

(** C3, as stated, fails: the calculator returns [Hcv] near 138.468, not
    138.48, and [Sgrb] near 80.298, more than nine metres below 89.73. *)
Lemma example_values_as_stated_fail : ~ example_values_as_stated.
Proof.
  intros (scv & hcv & sgrb & Hscv & Hhcv & Hsgrb & _ & _ & Ha & _).
  destruct example_distances
    as (scv' & hcv' & sgrb' & _ & _ & Hsgrb' & _ & _ & Bs).
  rewrite Hsgrb in Hsgrb'. injection Hsgrb' as <-.
  apply approx_inv in Ha. lra.
Qed.

(** C3, amended.  For the example (rotorcraft, no PRS, VLOS, [hfg=120],
    [cd=1.2], [v0=15], [roc=3], [rod=3], [wind=5]) the run returns
    [Scv] = 33.47, [Hcv] = 138.47 and [Sgrb] = 80.30 to two decimals, and
    the [grb] layer is the buffer of radius [Sgrb + Scv] = 113.77. *)
Theorem example_values :
  exists (tr : list app.event) (resp : app.Response),
    app.run example_req = (tr, Ok resp) /\
    distances example_params (app.meta resp) /\
    approx (app.scv_m (app.meta resp)) 33.47 0.005 /\
    approx (app.hcv_m (app.meta resp)) 138.47 0.005 /\
    approx (app.grb_m (app.meta resp)) 80.30 0.005 /\
    approx (app.grb_m (app.meta resp) + app.scv_m (app.meta resp))
      113.77 0.005 /\
    getitem (app.layers resp) "grb" =
    Ok (Some (styled_collection
                (buffer_geometry (base_lv95 [square])
                   (app.grb_m (app.meta resp) + app.scv_m (app.meta resp)))
                app.style_grb "Grb (Ground Risk Buffer)")).
Proof.
  destruct example_distances
    as (scv & hcv & sgrb & Hscv & Hhcv & Hsgrb & Bscv & Bhcv & Bsgrb).
  destruct (distances_exist example_params hcv) as [m Hm].
  { simpl. auto. }
  { simpl. lra. }
  { exact Hhcv. }
  { intros _ _. lra. }
  pose proof Hm as (_ & Hscv' & Hhcv' & Hsgrb' & _).
  cbn [example_params app.aircraftType app.prsEquipped app.v0 app.hfg
    app.roc app.wind app.cd] in Hscv', Hhcv', Hsgrb'.
  rewrite Hscv in Hscv'. injection Hscv' as Escv.
  rewrite Hhcv in Hhcv'. injection Hhcv' as Ehcv.
  rewrite Hsgrb in Hsgrb'. injection Hsgrb' as Esgrb.
  eexists. eexists. split.
  { apply (run_ok example_req m {| app.geometry := Some square |} []
             [square] Hm); reflexivity. }
  cbn [app.meta app.layers]. rewrite <- Escv, <- Ehcv, <- Esgrb.
  split; [exact Hm |].
  split; [apply (approx_between _ _ _ _ _ Bscv); lra |].
  split; [apply (approx_between _ _ _ _ _ Bhcv); lra |].
  split; [apply (approx_between _ _ _ _ _ Bsgrb); lra |].
  split.
  { apply approx_between with (lo := 113.7655) (hi := 113.7658); lra. }
  unfold table_layers, layer_table. cbn [map getitem].
  change (String.eqb "grb" "ca") with false.
  change (String.eqb "grb" "grb") with true. cbv iota.
  cbn [app.grb_m app.scv_m]. rewrite <- Escv, <- Esgrb.
  unfold layer_value. destruct (Rle_dec (sgrb + scv) 0); [lra | reflexivity].
Qed.

(** ** The layers *)

(** [run] returns for every request with a feature, a geometry in each
    feature, a known aircraft class, a rate of descent other than zero
    and, for a rotorcraft without PRS, a containment height that is not
    negative. *)
Lemma run_returns (req : app.RunReq) (Hcv : R) (f : app.feature)
  (fs : list app.feature) (ds : list app.geojson) :
  In (app.aircraftType (app.params req)) grb.AIRCRAFTTYPS ->
  app.rod (app.params req) <> 0 ->
  grb.get_hcv
    (calc (app.aircraftType (app.params req))
       (app.prsEquipped (app.params req)))
    (app.v0 (app.params req)) (app.hfg (app.params req))
    (app.roc (app.params req)) = Ok Hcv ->
  (app.prsEquipped (app.params req) = false ->
   app.aircraftType (app.params req) = "rotorcraft" -> 0 <= Hcv) ->
  feats req = f :: fs ->
  map app.geometry (f :: fs) = map Some ds ->
  exists (tr : list app.event) (resp : app.Response),
    app.run req = (tr, Ok resp).
Proof.
  intros Ha Hrod Hhcv Hdom Hf Hgeo.
  destruct (distances_exist _ Hcv Ha Hrod Hhcv Hdom) as [m Hm].
  eexists. eexists. apply (run_ok req m f fs ds Hm Hf Hgeo).
Qed.

Lemma example_run :
  exists (tr : list app.event) (resp : app.Response),
    app.run example_req = (tr, Ok resp).
Proof.
  destruct example_distances as (scv & hcv & sgrb & _ & Hhcv & _ & _ & Bh & _).
  apply (run_returns example_req hcv {| app.geometry := Some square |} []
           [square]).
  - simpl. auto.
  - simpl. lra.
  - exact Hhcv.
  - intros _ _. lra.
  - reflexivity.
  - reflexivity.
Qed.

Lemma table_layers_keys (base : app.geom) (m : app.Meta) :
  map fst (table_layers base m) =
  ["ca"; "grb"; "assemblies_horizon"; "adjacent_area"; "detection_area"].
Proof. reflexivity. Qed.

Lemma table_layers_getitem (base : app.geom) (m : app.Meta) :
  Forall (fun row =>
            match row with
            | (key, radius, st, name) =>
                getitem (table_layers base m) key =
                Ok (layer_value base (radius m) st name)
            end)
         layer_table.
Proof.
  unfold layer_table. repeat constructor.
Qed.

Lemma layer_value_cases (base : app.geom) (d : R) (st : app.style)
  (name : string) :
  (d <= 0 -> layer_value base d st name = Some empty_collection) /\
  (0 < d ->
   layer_value base d st name =
   Some (styled_collection (buffer_geometry base d) st name)).
Proof.
  unfold layer_value.
  destruct (Rle_dec d 0); split; intros; try lra; reflexivity.
Qed.

(** C1, as stated, fails.  Over a flight geography 10 m high with a rate
    of descent of 1 m/s the radius of the detection area is negative, and
    the key [detection_area] maps to a collection with no feature, not to
    [None]. *)
Lemma low_detection_layer_is_empty_collection :
  exists (tr : list app.event) (resp : app.Response),
    app.run low_req = (tr, Ok resp) /\
    app.sd_m (app.meta resp) + app.scv_m (app.meta resp) <= 0 /\
    getitem (app.layers resp) "detection_area" = Ok (Some empty_collection) /\
    getitem (app.layers resp) "detection_area" <> Ok None.
Proof.
  destruct (distances_exist low_params
              (10 + 4.00 + 3 * 1.00 + 0.5 * (15 ^ 2 / 9.81))) as [m Hm].
  { simpl. auto. }
  { simpl. lra. }
  { rewrite get_hcv_ok. reflexivity. }
  { intros _ _. lra. }
  pose proof Hm as (_ & Hscv & _ & _ & Hsd & _).
  cbn [low_params app.aircraftType app.prsEquipped app.v0 app.hfg
    app.rod app.opType app.cd] in Hscv, Hsd.
  unfold grb.get_scv, grb.get_srt in Hscv.
  rewrite get_scm_rotorcraft in Hscv.
  cbn [bind grb.const calc grb.sgps grb.spos grb.smap grb.get_srt grb.trt
    grb.CONST_3_3_0] in Hscv. injection Hscv as Escv.
  rewrite get_ddeco_vlos in Hsd by (try reflexivity; lra).
  injection Hsd as Esd.
  assert (HA : ALOS "rotorcraft" 1.2 = 327 * 1.2 + 20).
  { unfold ALOS. destruct (string_dec "rotorcraft" "rotorcraft");
      [reflexivity | congruence]. }
  rewrite HA in Esd.
  assert (Hneg : app.sd_m m + app.scv_m m <= 0).
  { rewrite <- Esd, <- Escv.
    pose proof (Rmin_l (((25.00 + 15) * (1.00 + (10 - 30) / 1)
                         + (327 * 1.2 + 20)) / 0.3) 5000).
    lra. }
  eexists. eexists. split.
  { apply (run_ok low_req m {| app.geometry := Some square |} []
             [square] Hm); reflexivity. }
  cbn [app.meta app.layers]. split; [exact Hneg |].
  assert (E : getitem (table_layers (base_lv95 [square]) m) "detection_area"
              = Ok (Some empty_collection)).
  { change (getitem (table_layers (base_lv95 [square]) m) "detection_area")
      with (Ok (layer_value (base_lv95 [square]) (app.sd_m m + app.scv_m m)
                  app.style_sd "Detection Area")).
    f_equal. apply layer_value_cases, Hneg. }
  split; [exact E |]. rewrite E. discriminate.
Qed.

(** C1, amended.  The [layers] mapping of a response has exactly the five
    keys [ca], [grb], [assemblies_horizon], [adjacent_area] and
    [detection_area].  A layer whose radius is [<= 0] maps to a polygon
    collection with no feature; a layer whose radius is [> 0] maps to a
    collection of one feature, the buffer of the projected union at that
    radius, carrying the layer's style and name. *)
Theorem layers_five_keys_empty_or_styled :
  forall (req : app.RunReq) (tr : list app.event) (resp : app.Response),
    app.run req = (tr, Ok resp) ->
    map fst (app.layers resp) =
    ["ca"; "grb"; "assemblies_horizon"; "adjacent_area"; "detection_area"] /\
    exists ds : list app.geojson,
      map app.geometry (feats req) = map Some ds /\
      Forall (fun row =>
                match row with
                | (key, radius, st, name) =>
                    let d := radius (app.meta resp) in
                    (d <= 0 ->
                     getitem (app.layers resp) key =
                     Ok (Some empty_collection)) /\
                    (0 < d ->
                     getitem (app.layers resp) key =
                     Ok (Some (styled_collection
                                 (buffer_geometry (base_lv95 ds) d) st name)))
                end)
             layer_table.
Proof.
  intros req tr resp H.
  destruct (run_inv req tr resp H) as (f & fs & ds & _ & Hf & Hgeo & _ & Hl).
  rewrite Hl. split; [apply table_layers_keys |].
  exists ds. rewrite Hf. split; [exact Hgeo |].
  pose proof (table_layers_getitem (base_lv95 ds) (app.meta resp)) as HT.
  rewrite Forall_forall in HT. apply Forall_forall.
  intros [[[key radius] st] name] Hin. specialize (HT _ Hin).
  cbv beta iota in HT.
  cbv zeta. rewrite HT.
  destruct (layer_value_cases (base_lv95 ds) (radius (app.meta resp)) st name)
    as [Hle Hgt].
  split; intros Hd; f_equal; auto.
Qed.

Lemma layers_five_keys_empty_or_styled_witness :
  exists (tr : list app.event) (resp : app.Response),
    app.run example_req = (tr, Ok resp) /\
    map fst (app.layers resp) =
    ["ca"; "grb"; "assemblies_horizon"; "adjacent_area"; "detection_area"] /\
    exists ds : list app.geojson,
      map app.geometry (feats example_req) = map Some ds /\
      Forall (fun row =>
                match row with
                | (key, radius, st, name) =>
                    let d := radius (app.meta resp) in
                    (d <= 0 ->
                     getitem (app.layers resp) key =
                     Ok (Some empty_collection)) /\
                    (0 < d ->
                     getitem (app.layers resp) key =
                     Ok (Some (styled_collection
                                 (buffer_geometry (base_lv95 ds) d) st name)))
                end)
             layer_table.
Proof.
  destruct example_run as (tr & resp & H).
  exists tr, resp. split; [exact H |].
  exact (layers_five_keys_empty_or_styled example_req tr resp H).
Defined.

Lemma buffer_radii_app (tr1 tr2 : list app.event) :
  buffer_radii (tr1 ++ tr2) = buffer_radii tr1 ++ buffer_radii tr2.
Proof.
  unfold buffer_radii. apply flat_map_app.
Qed.

Lemma buffer_radii_shapes (ds : list app.geojson) :
  buffer_radii (map app.ev_shape ds) = [].
Proof.
  induction ds as [| d ds IH]; [reflexivity | exact IH].
Qed.

Lemma buffer_radii_layer (base : app.geom) (d : R) :
  buffer_radii (layer_events base d) = if positive d then [d] else [].
Proof.
  unfold layer_events, positive. destruct (Rle_dec d 0); reflexivity.
Qed.

Lemma buffer_radii_run (ds : list app.geojson) (m : app.Meta) :
  buffer_radii (run_events ds m) =
  filter positive
    [ app.scv_m m; app.grb_m m + app.scv_m m; 1000 + app.scv_m m;
      app.aa_m m + app.grb_m m; app.sd_m m + app.scv_m m ].
Proof.
  unfold run_events, layer_table. cbn [flat_map].
  rewrite !buffer_radii_app, buffer_radii_shapes, !buffer_radii_layer.
  cbn [filter buffer_radii flat_map app].
  repeat match goal with
         | |- context [positive ?d] => destruct (positive d)
         end; reflexivity.
Qed.

(** C5.  The radii of the five layers follow the addition rules: [ca] is
    buffered at [Scv], [grb] at [Sgrb + Scv], [assemblies_horizon] at
    [1000 + Scv], [adjacent_area] at [adjacentAreaRadius + Sgrb] and
    [detection_area] at [Ddeco + Scv], where the distances are those the
    calculator returns for the parameters of the request; the buffers
    applied to the geometry are those of the positive radii, in this
    order. *)
Theorem layer_radii_addition_rules :
  forall (req : app.RunReq) (tr : list app.event) (resp : app.Response),
    app.run req = (tr, Ok resp) ->
    let p := app.params req in
    let c := calc (app.aircraftType p) (app.prsEquipped p) in
    exists (Scv Sgrb Ddeco : R) (ds : list app.geojson),
      grb.get_scv c (app.v0 p) = Ok Scv /\
      grb.get_sgrb c (app.v0 p) (app.wind p) (app.cd p) (app.hfg p)
        (app.roc p) = Ok Sgrb /\
      grb.get_ddeco c (app.v0 p) (app.rod p) (app.hfg p)
        (grb.PyStr (app.opType p)) (app.cd p) = Ok Ddeco /\
      map app.geometry (feats req) = map Some ds /\
      app.layers resp =
      [ ("ca",
         layer_value (base_lv95 ds) Scv app.style_ca
           "Scv (Containment Area)");
        ("grb",
         layer_value (base_lv95 ds) (Sgrb + Scv) app.style_grb
           "Grb (Ground Risk Buffer)");
        ("assemblies_horizon",
         layer_value (base_lv95 ds) (1000 + Scv) app.style_ah
           "Assemblies Horizon");
        ("adjacent_area",
         layer_value (base_lv95 ds)
           (grb.get_adjacent_area c (app.v0 p) + Sgrb) app.style_aa
           "Adjacent Area");
        ("detection_area",
         layer_value (base_lv95 ds) (Ddeco + Scv) app.style_sd
           "Detection Area") ] /\
      buffer_radii tr =
      filter positive
        [ Scv; Sgrb + Scv; 1000 + Scv;
          grb.get_adjacent_area c (app.v0 p) + Sgrb; Ddeco + Scv ].
Proof.
  intros req tr resp H p c.
  destruct (run_inv req tr resp H) as (f & fs & ds & Hd & Hf & Hgeo & -> & Hl).
  destruct Hd as (_ & Hscv & _ & Hsgrb & Hsd & _ & Haa & _).
  exists (app.scv_m (app.meta resp)), (app.grb_m (app.meta resp)),
    (app.sd_m (app.meta resp)), ds.
  split; [exact Hscv |]. split; [exact Hsgrb |]. split; [exact Hsd |].
  split; [rewrite Hf; exact Hgeo |].
  subst p c. rewrite <- Haa. split; [exact Hl |].
  apply buffer_radii_run.
Qed.

Lemma layer_radii_addition_rules_witness :
  exists (tr : list app.event) (resp : app.Response),
    app.run example_req = (tr, Ok resp) /\
    exists (Scv Sgrb Ddeco : R) (ds : list app.geojson),
      grb.get_scv (calc "rotorcraft" false) 15 = Ok Scv /\
      grb.get_sgrb (calc "rotorcraft" false) 15 5 1.2 120 3 = Ok Sgrb /\
      grb.get_ddeco (calc "rotorcraft" false) 15 3 120 (grb.PyStr "VLOS") 1.2
      = Ok Ddeco /\
      map app.geometry (feats example_req) = map Some ds /\
      app.layers resp =
      [ ("ca",
         layer_value (base_lv95 ds) Scv app.style_ca
           "Scv (Containment Area)");
        ("grb",
         layer_value (base_lv95 ds) (Sgrb + Scv) app.style_grb
           "Grb (Ground Risk Buffer)");
        ("assemblies_horizon",
         layer_value (base_lv95 ds) (1000 + Scv) app.style_ah
           "Assemblies Horizon");
        ("adjacent_area",
         layer_value (base_lv95 ds)
           (grb.get_adjacent_area (calc "rotorcraft" false) 15 + Sgrb)
           app.style_aa "Adjacent Area");
        ("detection_area",
         layer_value (base_lv95 ds) (Ddeco + Scv) app.style_sd
           "Detection Area") ] /\
      buffer_radii tr =
      filter positive
        [ Scv; Sgrb + Scv; 1000 + Scv;
          grb.get_adjacent_area (calc "rotorcraft" false) 15 + Sgrb;
          Ddeco + Scv ].
Proof.
  destruct example_run as (tr & resp & H).
  exists tr, resp. split; [exact H |].
  exact (layer_radii_addition_rules example_req tr resp H).
Defined.

(** ** The order of the checks *)

(** C8, as stated, fails.  A request without features whose aircraft
    class is not one of [AIRCRAFTTYPS] ends in the constructor of the
    calculator with a [KeyError], not with the 400 error. *)
Lemma no_features_fixed_wing_key_error :
  feats empty_req_fixed_wing = [] /\
  app.run empty_req_fixed_wing =
  ([], Raise (KeyError (grb.aircrafttype_not_in_list "fixed-wing"))).
Proof.
  split; [reflexivity |].
  apply run_bad_aircraft. simpl. intros [H | [H | []]]; discriminate.
Qed.

(** C8, amended.  A request without features, for which the calculator
    is constructed and the distances are computed (a known aircraft
    class, a rate of descent other than zero and, for a rotorcraft
    without PRS, a containment height [Hcv] that is not negative), fails
    with the 400 error; by then only the two transformers have been
    built: no union, buffer or reprojection of a geometry has taken
    place. *)
Theorem no_features_rejected_before_geometry :
  forall (req : app.RunReq) (Hcv : R),
    let p := app.params req in
    feats req = [] ->
    In (app.aircraftType p) grb.AIRCRAFTTYPS ->
    app.rod p <> 0 ->
    grb.get_hcv (calc (app.aircraftType p) (app.prsEquipped p))
      (app.v0 p) (app.hfg p) (app.roc p) = Ok Hcv ->
    (app.prsEquipped p = false -> app.aircraftType p = "rotorcraft" ->
     0 <= Hcv) ->
    exists tr : list app.event,
      app.run req =
      (tr, Raise (HTTPException 400 "No features found in FG GeoJSON.")) /\
      tr = [ app.ev_from_crs "EPSG:4326" "EPSG:2056";
             app.ev_from_crs "EPSG:2056" "EPSG:4326" ] /\
      Forall (fun e => app.geometry_work e = false) tr.
Proof.
  intros req Hcv p Hf Ha Hrod Hhcv Hdom.
  destruct (distances_exist p Hcv Ha Hrod Hhcv Hdom) as [m Hm].
  eexists. split; [apply (run_no_features req m Hm Hf) |].
  split; [reflexivity | repeat constructor].
Qed.

Lemma no_features_rejected_before_geometry_witness :
  exists tr : list app.event,
    app.run empty_req =
    (tr, Raise (HTTPException 400 "No features found in FG GeoJSON.")) /\
    tr = [ app.ev_from_crs "EPSG:4326" "EPSG:2056";
           app.ev_from_crs "EPSG:2056" "EPSG:4326" ] /\
    Forall (fun e => app.geometry_work e = false) tr.
Proof.
  destruct example_distances as (scv & hcv & sgrb & _ & Hhcv & _ & _ & Bh & _).
  apply (no_features_rejected_before_geometry empty_req hcv).
  - reflexivity.
  - simpl. auto.
  - simpl. lra.
  - exact Hhcv.
  - intros _ _. lra.
Defined.

(** ** The operation type *)

Lemma is_BVLOS_str (op : string) :
  grb.is_BVLOS (grb.PyStr op) = true <-> op = "BVLOS".
Proof.
  apply String.eqb_eq.
Qed.

Lemma not_BVLOS_str (op : string) :
  op <> "BVLOS" -> grb.is_BVLOS (grb.PyStr op) = false.
Proof.
  intros H. apply String.eqb_neq, H.
Qed.



(** ** Further properties of the calculator *)

(** X1.  The constructor returns exactly for the version ["current"] and
    an aircraft class of [AIRCRAFTTYPS]; the instance then holds the
    constants of version 3.3.0, the class and the PRS flag given. *)
Theorem init_returns_iff :
  forall (v a : string) (p : bool) (c : grb.GroundRiskBufferCalc),
    grb.__init__ v a p = Ok c <->
    v = "current" /\ In a grb.AIRCRAFTTYPS /\
    c = {| grb.version := "3.3.0"; grb.const := grb.CONST_3_3_0;
           grb.aircrafttype := a; grb.prs_enabled := p |}.
Proof.
  intros v a p c. split.
  - apply init_inv.
  - intros (-> & Ha & ->). apply (init_current a p Ha).
Qed.

(** X2.  The errors of the constructor, in the order it meets them: any
    version other than ["current"] raises [AttributeError], whatever the
    aircraft class; with the version ["current"], an aircraft class
    outside [AIRCRAFTTYPS] raises a [KeyError] that names it. *)
Theorem init_errors :
  forall (v a : string) (p : bool),
    (v <> "current" ->
     grb.__init__ v a p = Raise (AttributeError "version")) /\
    (v = "current" -> a <> "rotorcraft" -> a <> "fixedwing" ->
     grb.__init__ v a p =
     Raise (KeyError
              (String.append "Aircrafttype "
                 (String.append a
                    " not in list ['rotorcraft', 'fixedwing']")))).
Proof.
  intros v a p. split.
  - apply init_not_current.
  - intros -> H1 H2. apply init_bad_aircraft.
    simpl. intros [H | [H | []]]; congruence.
Qed.

Lemma init_errors_witness :
  grb.__init__ "2.0.0" "plane" false = Raise (AttributeError "version") /\
  grb.__init__ "current" "plane" false =
  Raise (KeyError "Aircrafttype plane not in list ['rotorcraft', 'fixedwing']").
Proof.
  split.
  - apply (init_errors "2.0.0" "plane" false). discriminate.
  - apply (init_errors "current" "plane" false);
      [reflexivity | discriminate | discriminate].
Defined.

Lemma sqrt3_bounds : 1.7 <= sqrt 3 <= 1.8.
Proof.
  apply sqrt_between; lra.
Qed.

Lemma sqrt2_bounds : 1.4 <= sqrt 2 <= 1.5.
Proof.
  apply sqrt_between; lra.
Qed.

(** Over the reals the tangent of the pitch angle of 45 degrees is 1
    and that of the roll angle of 30 degrees is [1 / sqrt 3]: the
    containment radius is [7 + v0 + v0^2 / 19.62] for a rotorcraft and
    [7 + v0 + sqrt 3 * v0^2 / 9.81] for a fixed wing. *)
Lemma get_scv_closed_form :
  forall (p : bool) (v0 : R),
    grb.get_scv (calc "rotorcraft" p) v0 = Ok (7 + v0 + v0 ^ 2 / 19.62) /\
    grb.get_scv (calc "fixedwing" p) v0 =
    Ok (7 + v0 + sqrt 3 * v0 ^ 2 / 9.81).
Proof.
  intros p v0. unfold grb.get_scv, grb.get_srt. split.
  - rewrite get_scm_rotorcraft.
    cbn [bind grb.const calc grb.sgps grb.spos grb.smap grb.trt
      grb.CONST_3_3_0]. f_equal. lra.
  - rewrite get_scm_fixedwing.
    cbn [bind grb.const calc grb.sgps grb.spos grb.smap grb.trt
      grb.CONST_3_3_0]. f_equal.
    pose proof sqrt3_bounds as Hs.
    assert (E : v0 ^ 2 / (9.81 * (1 / sqrt 3)) = sqrt 3 * v0 ^ 2 / 9.81).
    { replace 9.81 with (981 / 100) by lra. field. lra. }
    rewrite E. lra.
Qed.

Lemma get_scv_positive (a : string) (p : bool) (v0 : R) :
  In a grb.AIRCRAFTTYPS ->
  exists scv : R, grb.get_scv (calc a p) v0 = Ok scv /\ 0 < scv.
Proof.
  intros Ha. destruct (get_scv_closed_form p v0) as [Hr Hf].
  replace (v0 ^ 2) with (v0 * v0) in Hr, Hf by ring.
  pose proof (Rle_0_sqr v0) as Hw. unfold Rsqr in Hw.
  destruct (aircraft_cases a Ha) as [-> | ->].
  - eexists. split; [exact Hr |].
    pose proof (Rle_0_sqr (v0 + 9.81)) as Hsq. unfold Rsqr in Hsq. lra.
  - eexists. split; [exact Hf |].
    pose proof sqrt3_bounds as Hs.
    assert (H1 : 1.7 * (v0 * v0) <= sqrt 3 * (v0 * v0)).
    { apply Rmult_le_compat_r; lra. }
    pose proof (Rle_0_sqr (v0 + 3)) as Hsq. unfold Rsqr in Hsq.
    set (u := sqrt 3 * (v0 * v0)) in *. lra.
Qed.

(** X4.  Whenever a constructed calculator returns the containment
    radius, for any speed, negative speeds included, the radius is
    strictly positive. *)
Theorem get_scv_always_positive :
  forall (version a : string) (prs : bool) (c : grb.GroundRiskBufferCalc)
         (v0 scv : R),
    grb.__init__ version a prs = Ok c ->
    grb.get_scv c v0 = Ok scv ->
    0 < scv.
Proof.
  intros version a prs c v0 scv H Hscv.
  apply init_inv in H. destruct H as (_ & Ha & ->).
  destruct (get_scv_positive a prs v0 Ha) as (scv' & Hscv' & Hpos).
  rewrite Hscv in Hscv'. injection Hscv' as ->. exact Hpos.
Qed.

Lemma get_scv_always_positive_witness :
  exists scv : R,
    grb.get_scv (calc "fixedwing" true) (- 3) = Ok scv /\ 0 < scv.
Proof.
  destruct (get_scv_closed_form true (- 3)) as [_ Hf].
  eexists. split; [exact Hf |].
  exact (get_scv_always_positive "current" "fixedwing" true
           (calc "fixedwing" true) (- 3) _ eq_refl Hf).
Defined.

(** X5.  At the same speed, whenever both are returned, the containment
    radius of a fixed wing is not below that of a rotorcraft. *)
Theorem get_scv_fixedwing_ge_rotorcraft :
  forall (p q : bool) (v0 r f : R),
    grb.get_scv (calc "rotorcraft" p) v0 = Ok r ->
    grb.get_scv (calc "fixedwing" q) v0 = Ok f ->
    r <= f.
Proof.
  intros p q v0 r f Hr Hf.
  destruct (get_scv_closed_form p v0) as [Hr' _].
  destruct (get_scv_closed_form q v0) as [_ Hf'].
  replace (v0 ^ 2) with (v0 * v0) in Hr', Hf' by ring.
  rewrite Hr in Hr'. injection Hr' as ->.
  rewrite Hf in Hf'. injection Hf' as ->.
  pose proof (Rle_0_sqr v0) as Hw. unfold Rsqr in Hw.
  pose proof sqrt3_bounds as Hs.
  assert (H1 : 1.7 * (v0 * v0) <= sqrt 3 * (v0 * v0)).
  { apply Rmult_le_compat_r; lra. }
  set (u := sqrt 3 * (v0 * v0)) in *. lra.
Qed.

Lemma get_scv_fixedwing_ge_rotorcraft_witness :
  exists r f : R,
    grb.get_scv (calc "rotorcraft" false) 20 = Ok r /\
    grb.get_scv (calc "fixedwing" false) 20 = Ok f /\
    r <= f.
Proof.
  destruct (get_scv_closed_form false 20) as [Hr Hf].
  eexists. eexists. split; [exact Hr |]. split; [exact Hf |].
  exact (get_scv_fixedwing_ge_rotorcraft false false 20 _ _ Hr Hf).
Defined.

Lemma get_hcv_lower (a : string) (p : bool) (v0 hfg roc : R) :
  0 <= roc -> (a <> "rotorcraft" -> 0 <= v0) ->
  exists Hcv : R,
    grb.get_hcv (calc a p) v0 hfg roc = Ok Hcv /\ hfg + 4 <= Hcv.
Proof.
  intros Hroc Hv0. eexists. split; [apply get_hcv_ok |].
  unfold grb.get_hrt. cbn [grb.aircrafttype grb.const calc grb.trt
    grb.CONST_3_3_0].
  replace (v0 ^ 2) with (v0 * v0) by ring.
  pose proof (Rle_0_sqr v0) as Hw. unfold Rsqr in Hw.
  destruct (String.eqb_spec a "rotorcraft") as [_ | Hne].
  - lra.
  - specialize (Hv0 Hne). pose proof sqrt2_bounds as Hs.
    assert (H2 : 0 <= sqrt 2 / 2 * v0) by (apply Rmult_le_pos; lra).
    lra.
Qed.

(** X6.  With a rate of climb and a speed that are not negative, the
    containment height, whenever it is returned, lies at least 4 m (the
    altimetry error) above the height of the flight geography. *)
Theorem get_hcv_above_flight_geography :
  forall (version a : string) (prs : bool) (c : grb.GroundRiskBufferCalc)
         (v0 hfg roc Hcv : R),
    grb.__init__ version a prs = Ok c ->
    grb.get_hcv c v0 hfg roc = Ok Hcv ->
    0 <= v0 -> 0 <= roc ->
    hfg + 4 <= Hcv.
Proof.
  intros version a prs c v0 hfg roc Hcv H Hh Hv0 Hroc.
  apply init_inv in H. destruct H as (_ & _ & ->).
  destruct (get_hcv_lower a prs v0 hfg roc Hroc (fun _ => Hv0))
    as (Hcv' & Hh' & Hle).
  rewrite Hh in Hh'. injection Hh' as ->. exact Hle.
Qed.

Lemma get_hcv_above_flight_geography_witness :
  exists Hcv : R,
    grb.get_hcv (calc "fixedwing" false) 20 120 3 = Ok Hcv /\
    120 + 4 <= Hcv.
Proof.
  eexists. split; [apply get_hcv_ok |].
  apply (get_hcv_above_flight_geography "current" "fixedwing" false
           (calc "fixedwing" false) 20 120 3 _ eq_refl
           (get_hcv_ok "fixedwing" false 20 120 3)); lra.
Defined.

(** X7.  With a PRS, wherever the containment height is returned, even
    a negative one, the ground-risk-buffer distance is returned (the
    square root is not reached), for either aircraft class, and it does
    not depend on the characteristic dimension. *)
Theorem get_sgrb_prs_ignores_cd :
  forall (version a : string) (c : grb.GroundRiskBufferCalc)
         (v0 wind cd hfg roc Hcv : R),
    grb.__init__ version a true = Ok c ->
    grb.get_hcv c v0 hfg roc = Ok Hcv ->
    exists s : R,
      grb.get_sgrb c v0 wind cd hfg roc = Ok s /\
      forall cd' : R, grb.get_sgrb c v0 wind cd' hfg roc = Ok s.
Proof.
  intros version a c v0 wind cd hfg roc Hcv H Hh.
  apply init_inv in H. destruct H as (_ & _ & ->).
  eexists. split; [apply get_sgrb_prs, Hh |].
  intros cd'. apply get_sgrb_prs, Hh.
Qed.

Lemma get_sgrb_prs_ignores_cd_witness :
  exists s : R,
    grb.get_sgrb (calc "rotorcraft" true) 15 5 1.2 (- 500) 3 = Ok s /\
    forall cd' : R,
      grb.get_sgrb (calc "rotorcraft" true) 15 5 cd' (- 500) 3 = Ok s.
Proof.
  exact (get_sgrb_prs_ignores_cd "current" "rotorcraft"
           (calc "rotorcraft" true) 15 5 1.2 (- 500) 3 _ eq_refl
           (get_hcv_ok "rotorcraft" true 15 (- 500) 3)).
Defined.

(** X8.  Whenever the distance of a rotorcraft without PRS is returned,
    the containment height is not negative, the distance is at most
    [Hcv + 0.5 cd] and, for a speed that is not negative, at least
    [0.5 cd]. *)
Theorem get_sgrb_rotorcraft_bounds :
  forall (v0 wind cd hfg roc s Hcv : R),
    grb.get_sgrb (calc "rotorcraft" false) v0 wind cd hfg roc = Ok s ->
    grb.get_hcv (calc "rotorcraft" false) v0 hfg roc = Ok Hcv ->
    0 <= Hcv /\ s <= Hcv + 0.5 * cd /\ (0 <= v0 -> 0.5 * cd <= s).
Proof.
  intros v0 wind cd hfg roc s Hcv Hs Hh.
  assert (Hpos : 0 <= Hcv).
  { destruct (Rle_lt_dec 0 Hcv) as [Hle | Hlt]; [exact Hle |].
    rewrite (get_sgrb_rotorcraft_domain _ _ _ _ _ _ Hh Hlt) in Hs.
    discriminate. }
  rewrite (get_sgrb_rotorcraft _ _ _ _ _ _ Hh Hpos) in Hs.
  injection Hs as <-. split; [exact Hpos |]. split; [apply Rmin_r |].
  intros Hv0. apply Rmin_glb; [| lra].
  pose proof (sqrt_pos (2 * Hcv / 9.81)) as Hsq.
  assert (0 <= v0 * sqrt (2 * Hcv / 9.81)) by (apply Rmult_le_pos; lra).
  lra.
Qed.

Lemma get_sgrb_rotorcraft_bounds_witness :
  exists s Hcv : R,
    grb.get_sgrb (calc "rotorcraft" false) 15 5 1.2 120 3 = Ok s /\
    grb.get_hcv (calc "rotorcraft" false) 15 120 3 = Ok Hcv /\
    0 <= Hcv /\ s <= Hcv + 0.5 * 1.2 /\ 0.5 * 1.2 <= s.
Proof.
  destruct example_distances as (scv & hcv & sgrb & _ & Hh & Hs & _).
  exists sgrb, hcv. split; [exact Hs |]. split; [exact Hh |].
  destruct (get_sgrb_rotorcraft_bounds 15 5 1.2 120 3 sgrb hcv Hs Hh)
    as (H1 & H2 & H3).
  split; [exact H1 |]. split; [exact H2 |]. apply H3. lra.
Defined.

(** X9.  The detection time window, the detection distance in either
    mode and the detection height are returned exactly when the rate of
    descent is not zero; at zero each raises [ZeroDivisionError]. *)
Theorem rate_of_descent_zero_raises :
  forall (c : grb.GroundRiskBufferCalc) (v0 roc rod hfg cd : R)
         (op : grb.pyval),
    (rod = 0 ->
     grb.get_te c rod hfg = Raise ZeroDivisionError /\
     grb.get_ddeco c v0 rod hfg op cd = Raise ZeroDivisionError /\
     grb.get_hdeco c roc rod hfg = Raise ZeroDivisionError) /\
    (rod <> 0 ->
     (exists t : R, grb.get_te c rod hfg = Ok t) /\
     (exists d : R, grb.get_ddeco c v0 rod hfg op cd = Ok d) /\
     (exists h : R, grb.get_hdeco c roc rod hfg = Ok h)).
Proof.
  intros c v0 roc rod hfg cd op. split.
  - intros ->. split; [| split].
    + unfold grb.get_te. rewrite pydiv_zero. reflexivity.
    + apply get_ddeco_zero_rod.
    + unfold grb.get_hdeco, grb.get_te. rewrite pydiv_zero. reflexivity.
  - intros Hrod. split; [| split].
    + eexists. apply get_te_ok, Hrod.
    + unfold grb.get_ddeco. rewrite get_te_ok, pydiv_ok by assumption.
      cbn [bind]. destruct (grb.is_BVLOS op); [eexists; reflexivity |].
      match goal with
      | |- context [Rgt_dec ?x ?y] => destruct (Rgt_dec x y)
      end; eexists; reflexivity.
    + unfold grb.get_hdeco. rewrite get_te_ok by assumption.
      eexists. reflexivity.
Qed.

Lemma rate_of_descent_zero_raises_witness :
  grb.get_te (calc "rotorcraft" false) 0 120 = Raise ZeroDivisionError /\
  grb.get_ddeco (calc "rotorcraft" false) 15 0 120 (grb.PyStr "VLOS") 1.2
  = Raise ZeroDivisionError /\
  grb.get_hdeco (calc "rotorcraft" false) 3 0 120 = Raise ZeroDivisionError.
Proof.
  apply (rate_of_descent_zero_raises (calc "rotorcraft" false) 15 3 0 120
           1.2 (grb.PyStr "VLOS")).
  reflexivity.
Defined.

(** X10.  In BVLOS mode the detection distance and the detection
    height are built on the one time window [get_te] returns: the
    distance is that window times [Vtr + v0], the height is
    [RODtr + roc] times that window; and the BVLOS distance is the same
    for either aircraft class, with or without PRS, and for every
    characteristic dimension. *)
Theorem bvlos_distance_and_height :
  forall (a a' : string) (p p' : bool) (v0 roc rod hfg cd cd' te : R),
    grb.get_te (calc a p) rod hfg = Ok te ->
    grb.get_ddeco (calc a p) v0 rod hfg (grb.PyStr "BVLOS") cd =
    Ok (te * (grb.Vtr grb.CONST_3_3_0 + v0)) /\
    grb.get_hdeco (calc a p) roc rod hfg =
    Ok ((grb.RODtr grb.CONST_3_3_0 + roc) * te) /\
    grb.get_ddeco (calc a' p') v0 rod hfg (grb.PyStr "BVLOS") cd' =
    Ok (te * (grb.Vtr grb.CONST_3_3_0 + v0)).
Proof.
  intros a a' p p' v0 roc rod hfg cd cd' te Hte.
  assert (Hte' : grb.get_te (calc a' p') rod hfg = Ok te) by exact Hte.
  unfold grb.get_ddeco, grb.get_hdeco.
  change (grb.is_BVLOS (grb.PyStr "BVLOS")) with true. cbv iota.
  rewrite Hte, Hte'. repeat split.
Qed.

Lemma bvlos_distance_and_height_witness :
  exists te : R,
    grb.get_te (calc "rotorcraft" false) 3 120 = Ok te /\
    grb.get_ddeco (calc "rotorcraft" false) 15 3 120 (grb.PyStr "BVLOS") 1.2
    = Ok (te * (grb.Vtr grb.CONST_3_3_0 + 15)) /\
    grb.get_hdeco (calc "rotorcraft" false) 3 3 120 =
    Ok ((grb.RODtr grb.CONST_3_3_0 + 3) * te) /\
    grb.get_ddeco (calc "fixedwing" true) 15 3 120 (grb.PyStr "BVLOS") 4
    = Ok (te * (grb.Vtr grb.CONST_3_3_0 + 15)).
Proof.
  assert (Hte : grb.get_te (calc "rotorcraft" false) 3 120 =
                Ok (15.00 + 1.00 + (120 - 30) / 3)).
  { apply get_te_ok. lra. }
  eexists. split; [exact Hte |].
  exact (bvlos_distance_and_height "rotorcraft" "fixedwing" false true
           15 3 3 120 1.2 4 _ Hte).
Defined.

Lemma ALOS_monotone (a : string) (cd1 cd2 : R) :
  cd1 <= cd2 -> ALOS a cd1 <= ALOS a cd2.
Proof.
  intros H. unfold ALOS. destruct (string_dec a "rotorcraft"); lra.
Qed.

(** X11.  In VLOS mode the detection distance does not decrease when the
    characteristic dimension grows, all else equal. *)
Theorem get_ddeco_vlos_monotone_in_cd :
  forall (a : string) (p : bool) (v0 rod hfg cd1 cd2 : R) (op : grb.pyval),
    rod <> 0 ->
    grb.is_BVLOS op = false ->
    cd1 <= cd2 ->
    exists d1 d2 : R,
      grb.get_ddeco (calc a p) v0 rod hfg op cd1 = Ok d1 /\
      grb.get_ddeco (calc a p) v0 rod hfg op cd2 = Ok d2 /\
      d1 <= d2.
Proof.
  intros a p v0 rod hfg cd1 cd2 op Hrod Hop Hcd.
  eexists. eexists.
  split; [apply get_ddeco_vlos; assumption |].
  split; [apply get_ddeco_vlos; assumption |].
  pose proof (ALOS_monotone a cd1 cd2 Hcd) as HA.
  apply Rle_min_compat_r.
  set (dv := (25.00 + v0) * (1.00 + (hfg - 30) / rod)). lra.
Qed.

Lemma get_ddeco_vlos_monotone_in_cd_witness :
  exists d1 d2 : R,
    grb.get_ddeco (calc "fixedwing" false) 15 3 120 (grb.PyStr "VLOS") 1
    = Ok d1 /\
    grb.get_ddeco (calc "fixedwing" false) 15 3 120 (grb.PyStr "VLOS") 2
    = Ok d2 /\
    d1 <= d2.
Proof.
  apply (get_ddeco_vlos_monotone_in_cd "fixedwing" false 15 3 120 1 2
           (grb.PyStr "VLOS")); [lra | reflexivity | lra].
Defined.

(** ** Further properties of [run] *)



Lemma run_math_domain (req : app.RunReq) (scv Hcv : R) :
  app.aircraftType (app.params req) = "rotorcraft" ->
  app.prsEquipped (app.params req) = false ->
  grb.get_scv (calc "rotorcraft" false) (app.v0 (app.params req)) = Ok scv ->
  grb.get_hcv (calc "rotorcraft" false) (app.v0 (app.params req))
    (app.hfg (app.params req)) (app.roc (app.params req)) = Ok Hcv ->
  Hcv < 0 ->
  app.run req = ([], Raise (ValueError "math domain error")).
Proof.
  intros Ha Hp Hscv Hh Hneg. unfold app.run. cbv zeta. rewrite Ha, Hp.
  rewrite init_current by (simpl; auto). rewrite iobind_lift_ok.
  rewrite Hscv, iobind_lift_ok, Hh, iobind_lift_ok.
  rewrite (get_sgrb_rotorcraft_domain _ _ _ _ _ _ Hh Hneg). reflexivity.
Qed.

Lemma run_zero_rod (req : app.RunReq) (scv Hcv sgrb : R) :
  In (app.aircraftType (app.params req)) grb.AIRCRAFTTYPS ->
  grb.get_scv
    (calc (app.aircraftType (app.params req))
       (app.prsEquipped (app.params req)))
    (app.v0 (app.params req)) = Ok scv ->
  grb.get_hcv
    (calc (app.aircraftType (app.params req))
       (app.prsEquipped (app.params req)))
    (app.v0 (app.params req)) (app.hfg (app.params req))
    (app.roc (app.params req)) = Ok Hcv ->
  grb.get_sgrb
    (calc (app.aircraftType (app.params req))
       (app.prsEquipped (app.params req)))
    (app.v0 (app.params req)) (app.wind (app.params req))
    (app.cd (app.params req)) (app.hfg (app.params req))
    (app.roc (app.params req)) = Ok sgrb ->
  app.rod (app.params req) = 0 ->
  app.run req = ([], Raise ZeroDivisionError).
Proof.
  intros Ha Hscv Hh Hs Hrod. unfold app.run. cbv zeta.
  rewrite (init_current _ _ Ha), iobind_lift_ok.
  rewrite Hscv, iobind_lift_ok, Hh, iobind_lift_ok.
  rewrite Hs, iobind_lift_ok, Hrod, get_ddeco_zero_rod. reflexivity.
Qed.

Lemma distances_sgrb_domain (p : app.Params) (m : app.Meta) :
  distances p m ->
  app.prsEquipped p = false -> app.aircraftType p = "rotorcraft" ->
  0 <= app.hcv_m m.
Proof.
  intros (_ & _ & Hh & Hs & _) Hp Ha.
  rewrite Hp, Ha in Hs, Hh.
  destruct (Rle_lt_dec 0 (app.hcv_m m)) as [Hle | Hlt]; [exact Hle |].
  rewrite (get_sgrb_rotorcraft_domain _ _ _ _ _ _ Hh Hlt) in Hs.
  discriminate.
Qed.

(** X12.  What a response implies about the request: the aircraft class
    is one of [AIRCRAFTTYPS], the rate of descent is not zero, the
    containment height of a rotorcraft without PRS is not negative, the
    request has a feature and every feature carries a ["geometry"]
    entry. *)
Theorem run_returns_only_if :
  forall (req : app.RunReq) (tr : list app.event) (resp : app.Response),
    app.run req = (tr, Ok resp) ->
    let p := app.params req in
    In (app.aircraftType p) grb.AIRCRAFTTYPS /\
    app.rod p <> 0 /\
    (app.prsEquipped p = false -> app.aircraftType p = "rotorcraft" ->
     0 <= app.hcv_m (app.meta resp)) /\
    feats req <> [] /\
    exists ds : list app.geojson, geometries (feats req) = map Some ds.
Proof.
  intros req tr resp H p.
  destruct (run_inv req tr resp H) as (f & fs & ds & Hd & Hf & Hgeo & _).
  pose proof Hd as (Ha & _ & _ & _ & Hsd & _).
  split; [exact Ha |].
  split; [exact (get_ddeco_ok_rod _ _ _ _ _ _ _ Hsd) |].
  split; [exact (distances_sgrb_domain p (app.meta resp) Hd) |].
  split; [rewrite Hf; discriminate |].
  exists ds. rewrite Hf. exact Hgeo.
Qed.

Lemma run_returns_only_if_witness :
  exists (tr : list app.event) (resp : app.Response),
    app.run example_req = (tr, Ok resp) /\
    In "rotorcraft" grb.AIRCRAFTTYPS /\
    3 <> 0 /\
    0 <= app.hcv_m (app.meta resp) /\
    feats example_req <> [] /\
    exists ds : list app.geojson,
      geometries (feats example_req) = map Some ds.
Proof.
  destruct example_run as (tr & resp & H).
  exists tr, resp. split; [exact H |].
  destruct (run_returns_only_if example_req tr resp H)
    as (H1 & H2 & H3 & H4 & H5).
  split; [exact H1 |]. split; [exact H2 |].
  split; [apply H3; reflexivity |]. split; [exact H4 | exact H5].
Defined.

(** X13.  The errors of the calculator come first in [run], with
    features or without, and before any library call.  An aircraft class
    outside [AIRCRAFTTYPS] raises [KeyError].  For a known class, once
    the containment radius and height are returned, a negative height of
    a rotorcraft without PRS raises [ValueError]; and once the
    ground-risk-buffer distance is returned too, a rate of descent of
    zero raises [ZeroDivisionError]. *)
Theorem run_calculator_errors_first :
  forall req : app.RunReq,
    let p := app.params req in
    let c := calc (app.aircraftType p) (app.prsEquipped p) in
    (~ In (app.aircraftType p) grb.AIRCRAFTTYPS ->
     app.run req =
     ([], Raise (KeyError
                   (grb.aircrafttype_not_in_list (app.aircraftType p))))) /\
    (forall scv Hcv : R,
        grb.get_scv c (app.v0 p) = Ok scv ->
        grb.get_hcv c (app.v0 p) (app.hfg p) (app.roc p) = Ok Hcv ->
        app.aircraftType p = "rotorcraft" -> app.prsEquipped p = false ->
        Hcv < 0 ->
        app.run req = ([], Raise (ValueError "math domain error"))) /\
    (forall scv Hcv sgrb : R,
        In (app.aircraftType p) grb.AIRCRAFTTYPS ->
        grb.get_scv c (app.v0 p) = Ok scv ->
        grb.get_hcv c (app.v0 p) (app.hfg p) (app.roc p) = Ok Hcv ->
        grb.get_sgrb c (app.v0 p) (app.wind p) (app.cd p) (app.hfg p)
          (app.roc p) = Ok sgrb ->
        app.rod p = 0 ->
        app.run req = ([], Raise ZeroDivisionError)).
Proof.
  intros req p c. split; [| split].
  - apply run_bad_aircraft.
  - intros scv Hcv Hscv Hh Hr Hp Hneg. subst c.
    fold p in Hr, Hp. rewrite Hr, Hp in Hscv, Hh.
    apply (run_math_domain req scv Hcv Hr Hp Hscv Hh Hneg).
  - intros scv Hcv sgrb Ha Hscv Hh Hs Hrod.
    apply (run_zero_rod req scv Hcv sgrb Ha Hscv Hh Hs Hrod).
Qed.

Lemma run_calculator_errors_first_witness :
  app.run empty_req_fixed_wing =
  ([], Raise (KeyError (grb.aircrafttype_not_in_list "fixed-wing"))) /\
  app.run {| app.fg := one_feature;
             app.params :=
               {| app.hfg := - 200; app.opType := "VLOS";
                  app.aircraftType := "rotorcraft";
                  app.prsEquipped := false; app.cd := 1.2; app.v0 := 15;
                  app.roc := 3; app.rod := 3; app.wind := 5 |} |} =
  ([], Raise (ValueError "math domain error")) /\
  app.run {| app.fg := one_feature;
             app.params :=
               {| app.hfg := 120; app.opType := "BVLOS";
                  app.aircraftType := "fixedwing";
                  app.prsEquipped := false; app.cd := 1.2; app.v0 := 15;
                  app.roc := 3; app.rod := 0; app.wind := 5 |} |} =
  ([], Raise ZeroDivisionError).
Proof.
  split; [| split].
  - apply (run_calculator_errors_first empty_req_fixed_wing).
    simpl. intros [H | [H | []]]; discriminate.
  - destruct (get_scv_closed_form false 15) as [Hscv _].
    assert (Hh : grb.get_hcv (calc "rotorcraft" false) 15 (- 200) 3 =
                 Ok (- 200 + 4.00 + 3 * 1.00 + 0.5 * (15 ^ 2 / 9.81))).
    { rewrite get_hcv_ok. reflexivity. }
    pose proof (run_calculator_errors_first
                  {| app.fg := one_feature;
                     app.params :=
                       {| app.hfg := - 200; app.opType := "VLOS";
                          app.aircraftType := "rotorcraft";
                          app.prsEquipped := false; app.cd := 1.2;
                          app.v0 := 15; app.roc := 3; app.rod := 3;
                          app.wind := 5 |} |}) as T.
    cbv zeta in T. destruct T as (_ & T & _).
    apply (T _ _ Hscv Hh); [reflexivity | reflexivity | lra].
  - destruct (get_scv_closed_form false 15) as [_ Hscv].
    assert (Hh : grb.get_hcv (calc "fixedwing" false) 15 120 3 =
                 Ok (120 + 4.00 + sqrt 2 / 2 * 15 * 1.00
                     + 0.3 * (15 ^ 2 / 9.81))).
    { rewrite get_hcv_ok. reflexivity. }
    assert (Hs : grb.get_sgrb (calc "fixedwing" false) 15 5 1.2 120 3 =
                 Ok (120 + 4.00 + sqrt 2 / 2 * 15 * 1.00
                     + 0.3 * (15 ^ 2 / 9.81) + 0.5 * 1.2)).
    { apply get_sgrb_fixedwing; [discriminate | exact Hh]. }
    pose proof (run_calculator_errors_first
                  {| app.fg := one_feature;
                     app.params :=
                       {| app.hfg := 120; app.opType := "BVLOS";
                          app.aircraftType := "fixedwing";
                          app.prsEquipped := false; app.cd := 1.2;
                          app.v0 := 15; app.roc := 3; app.rod := 0;
                          app.wind := 5 |} |}) as T.
    cbv zeta in T. destruct T as (_ & _ & T).
    apply (T _ _ _ (or_intror (or_introl eq_refl)) Hscv Hh Hs). reflexivity.
Defined.



Lemma shapes_buffer_ok (ds ds' : list app.geojson) :
  Forall (buffer_call_ok ds) (map app.ev_shape ds').
Proof.
  induction ds' as [| d ds' IH]; constructor; [exact I | exact IH].
Qed.

Lemma layer_events_buffer_ok (ds : list app.geojson) (d : R) :
  Forall (buffer_call_ok ds) (layer_events (base_lv95 ds) d).
Proof.
  unfold layer_events. destruct (Rle_dec d 0); repeat constructor. lra.
Qed.

Lemma run_events_buffer_ok (ds : list app.geojson) (m : app.Meta) :
  Forall (buffer_call_ok ds) (run_events ds m).
Proof.
  unfold run_events, layer_table. cbn [flat_map].
  repeat rewrite Forall_app. repeat split;
    try apply layer_events_buffer_ok; try apply shapes_buffer_ok;
    repeat constructor.
Qed.

Lemma run_events_containment_buffer (ds : list app.geojson) (m : app.Meta) :
  0 < app.scv_m m ->
  In (app.ev_buffer (base_lv95 ds) (app.scv_m m)) (run_events ds m).
Proof.
  intros Hpos. unfold run_events, layer_table. cbn [flat_map].
  apply in_or_app. right. apply in_or_app. right.
  apply in_or_app. right. apply in_or_app. left.
  unfold layer_events. destruct (Rle_dec (app.scv_m m) 0); [lra |].
  left. reflexivity.
Qed.

(** X15.  In every run that returns, each buffer call is applied to the
    union of the geometries of the request projected to EPSG:2056, at a
    strictly positive distance; the buffer of the containment area is
    always among them. *)
Theorem run_buffers_projected_union :
  forall (req : app.RunReq) (tr : list app.event) (resp : app.Response),
    app.run req = (tr, Ok resp) ->
    exists ds : list app.geojson,
      geometries (feats req) = map Some ds /\
      Forall (buffer_call_ok ds) tr /\
      In (app.ev_buffer (base_lv95 ds) (app.scv_m (app.meta resp))) tr.
Proof.
  intros req tr resp H.
  destruct (run_inv req tr resp H) as (f & fs & ds & Hd & Hf & Hgeo & -> & _).
  exists ds. split; [rewrite Hf; exact Hgeo |].
  split; [apply run_events_buffer_ok |].
  apply run_events_containment_buffer.
  destruct Hd as (Ha & Hscv & _).
  destruct (get_scv_positive _ (app.prsEquipped (app.params req))
              (app.v0 (app.params req)) Ha) as (scv & Hscv' & Hpos).
  rewrite Hscv in Hscv'. injection Hscv' as ->. exact Hpos.
Qed.

Lemma run_buffers_projected_union_witness :
  exists (tr : list app.event) (resp : app.Response)
         (ds : list app.geojson),
    app.run example_req = (tr, Ok resp) /\
    geometries (feats example_req) = map Some ds /\
    Forall (buffer_call_ok ds) tr /\
    In (app.ev_buffer (base_lv95 ds) (app.scv_m (app.meta resp))) tr.
Proof.
  destruct example_run as (tr & resp & H).
  destruct (run_buffers_projected_union example_req tr resp H)
    as (ds & Hrest).
  exists tr, resp, ds. split; [exact H | exact Hrest].
Defined.

(** X17.  In every response the containment area and the assemblies
    horizon hold a feature: their radii [Scv] and [1000 + Scv] are
    strictly positive, so these two layers are never left empty. *)
Theorem containment_layers_never_empty :
  forall (req : app.RunReq) (tr : list app.event) (resp : app.Response),
    app.run req = (tr, Ok resp) ->
    exists ds : list app.geojson,
      geometries (feats req) = map Some ds /\
      0 < app.scv_m (app.meta resp) /\
      getitem (app.layers resp) "ca" =
      Ok (Some (styled_collection
                  (buffer_geometry (base_lv95 ds) (app.scv_m (app.meta resp)))
                  app.style_ca "Scv (Containment Area)")) /\
      getitem (app.layers resp) "assemblies_horizon" =
      Ok (Some (styled_collection
                  (buffer_geometry (base_lv95 ds)
                     (1000 + app.scv_m (app.meta resp)))
                  app.style_ah "Assemblies Horizon")).
Proof.
  intros req tr resp H.
  destruct (run_inv req tr resp H) as (f & fs & ds & Hd & Hf & Hgeo & _ & Hl).
  destruct Hd as (Ha & Hscv & _).
  destruct (get_scv_positive _ (app.prsEquipped (app.params req))
              (app.v0 (app.params req)) Ha) as (scv & Hscv' & Hpos).
  rewrite Hscv in Hscv'. injection Hscv' as Escv.
  rewrite <- Escv in Hpos.
  exists ds. split; [rewrite Hf; exact Hgeo |]. split; [exact Hpos |].
  rewrite Hl. split.
  - change (getitem (table_layers (base_lv95 ds) (app.meta resp)) "ca")
      with (Ok (layer_value (base_lv95 ds) (app.scv_m (app.meta resp))
                  app.style_ca "Scv (Containment Area)")).
    f_equal. apply layer_value_cases, Hpos.
  - change (getitem (table_layers (base_lv95 ds) (app.meta resp))
              "assemblies_horizon")
      with (Ok (layer_value (base_lv95 ds)
                  (1000 + app.scv_m (app.meta resp))
                  app.style_ah "Assemblies Horizon")).
    f_equal. apply layer_value_cases. lra.
Qed.

Lemma containment_layers_never_empty_witness :
  exists (tr : list app.event) (resp : app.Response)
         (ds : list app.geojson),
    app.run example_req = (tr, Ok resp) /\
    geometries (feats example_req) = map Some ds /\
    0 < app.scv_m (app.meta resp) /\
    getitem (app.layers resp) "ca" =
    Ok (Some (styled_collection
                (buffer_geometry (base_lv95 ds) (app.scv_m (app.meta resp)))
                app.style_ca "Scv (Containment Area)")) /\
    getitem (app.layers resp) "assemblies_horizon" =
    Ok (Some (styled_collection
                (buffer_geometry (base_lv95 ds)
                   (1000 + app.scv_m (app.meta resp)))
                app.style_ah "Assemblies Horizon")).
Proof.
  destruct example_run as (tr & resp & H).
  destruct (containment_layers_never_empty example_req tr resp H)
    as (ds & Hrest).
  exists tr, resp, ds. split; [exact H | exact Hrest].
Defined.

(** ** Further properties of the helpers of [run] *)

(** X18.  [fc] keeps the features that are not [None], in their order,
    and drops the rest: a feature is in the collection exactly when it
    was an argument, and the collection is empty exactly when every
    argument is [None]. *)
Theorem fc_keeps_features :
  forall fs : list (option app.Feature),
    app.fc_type (app.fc fs) = "FeatureCollection" /\
    map Some (app.fc_features (app.fc fs)) =
    filter (fun f => match f with Some _ => true | None => false end) fs /\
    (forall x : app.Feature,
        In x (app.fc_features (app.fc fs)) <-> In (Some x) fs) /\
    (app.fc_features (app.fc fs) = [] <-> Forall (fun f => f = None) fs).
Proof.
  intros fs. split; [reflexivity |].
  cbn [app.fc app.fc_features].
  induction fs as [| [x |] fs (IH1 & IH2 & IH3)].
  - split; [reflexivity |]. split.
    + intros x. split; intros [].
    + split; [constructor | reflexivity].
  - split; [cbn; f_equal; exact IH1 |]. split.
    + intros y. cbn. rewrite IH2. split.
      * intros [-> | H]; auto.
      * intros [H | H]; [injection H as ->; auto | auto].
    + split; [discriminate |]. intros H. inversion H. discriminate.
  - split; [exact IH1 |]. split.
    + intros y. cbn. rewrite IH2. split; [auto |].
      intros [H | H]; [discriminate | exact H].
    + cbn. rewrite IH3. split.
      * intros H. constructor; [reflexivity | exact H].
      * intros H. inversion H. assumption.
Qed.

Lemma getitem_setitem_same {V : Type} (d : list (string * V)) (k : string)
  (v : V) :
  getitem (app.setitem d k v) k = Ok v.
Proof.
  induction d as [| [k' v'] d IH]; cbn.
  - rewrite String.eqb_refl. reflexivity.
  - destruct (String.eqb k k') eqn:E; cbn.
    + rewrite String.eqb_refl. reflexivity.
    + rewrite E. exact IH.
Qed.

Lemma getitem_setitem_other {V : Type} (d : list (string * V))
  (k k' : string) (v : V) :
  k' <> k -> getitem (app.setitem d k v) k' = getitem d k'.
Proof.
  intros Hne. induction d as [| [k0 v0] d IH]; cbn.
  - destruct (String.eqb_spec k' k); [contradiction | reflexivity].
  - destruct (String.eqb_spec k k0) as [-> | Hk]; cbn.
    + destruct (String.eqb_spec k' k0); [contradiction | reflexivity].
    + destruct (String.eqb k' k0); [reflexivity | exact IH].
Qed.

Lemma setitem_setitem {V : Type} (d : list (string * V)) (k : string)
  (v v' : V) :
  app.setitem (app.setitem d k v) k v' = app.setitem d k v'.
Proof.
  induction d as [| [k0 v0] d IH]; cbn.
  - rewrite String.eqb_refl. reflexivity.
  - destruct (String.eqb k k0) eqn:E; cbn.
    + rewrite String.eqb_refl. reflexivity.
    + rewrite E, IH. reflexivity.
Qed.

(** X19.  [add_name] returns [None] for [None]; on a collection it keeps
    the type and the number of features, and each feature keeps its type,
    its geometry and every property but ["name"], which becomes the name
    given.  Naming again replaces the name: only the last name stays. *)
Theorem add_name_sets_name_only :
  forall (o : app.FeatureCollection) (name name' : string),
    app.add_name None name = None /\
    (exists o' : app.FeatureCollection,
        app.add_name (Some o) name = Some o' /\
        app.fc_type o' = app.fc_type o /\
        Forall2 (fun f f' =>
                   app.f_type f' = app.f_type f /\
                   app.f_geometry f' = app.f_geometry f /\
                   getitem (app.f_properties f') "name" = Ok (app.PStr name) /\
                   forall k : string,
                     k <> "name" ->
                     getitem (app.f_properties f') k =
                     getitem (app.f_properties f) k)
                (app.fc_features o) (app.fc_features o')) /\
    app.add_name (app.add_name (Some o) name) name' =
    app.add_name (Some o) name'.
Proof.
  intros o name name'. split; [reflexivity |]. split.
  - eexists. split; [reflexivity |]. split; [reflexivity |].
    cbn [app.fc_features].
    induction (app.fc_features o) as [| f fs IH]; constructor; [| exact IH].
    cbn [app.f_type app.f_geometry app.f_properties].
    split; [reflexivity |]. split; [reflexivity |].
    split; [apply getitem_setitem_same |].
    intros k Hk. apply getitem_setitem_other, Hk.
  - unfold app.add_name. cbn [app.fc_type app.fc_features].
    f_equal. f_equal. rewrite map_map. apply map_ext.
    intros f. cbn [app.f_type app.f_geometry app.f_properties].
    rewrite setitem_setitem. reflexivity.
Qed.

(** X20.  What every response holds besides the layers: the parameters
    of the request echoed, the assemblies-horizon distance 1000, an
    adjacent-area distance within [[5000, 35000]], and, unless the
    operation type is ["BVLOS"], a detection distance of at most 5000. *)
Theorem response_meta_invariants :
  forall (req : app.RunReq) (tr : list app.event) (resp : app.Response),
    app.run req = (tr, Ok resp) ->
    let m := app.meta resp in
    app.inputs m = app.params req /\
    app.ah_m m = 1000 /\
    5000 <= app.aa_m m <= 35000 /\
    (app.opType (app.params req) <> "BVLOS" -> app.sd_m m <= 5000).
Proof.
  intros req tr resp H m.
  destruct (run_inv req tr resp H) as (f & fs & ds & Hd & _).
  destruct Hd as (_ & _ & _ & _ & Hsd & _ & Haa & Hah & Hin).
  fold m in Hsd, Haa, Hah, Hin.
  split; [exact Hin |]. split; [rewrite Hah; lra |].
  split; [rewrite Haa; apply adjacent_area_bounds |].
  intros Hop.
  pose proof (get_ddeco_ok_rod _ _ _ _ _ _ _ Hsd) as Hrod.
  rewrite get_ddeco_vlos in Hsd by (try assumption; apply not_BVLOS_str, Hop).
  injection Hsd as <-. apply Rmin_r.
Qed.

Lemma response_meta_invariants_witness :
  exists (tr : list app.event) (resp : app.Response),
    app.run example_req = (tr, Ok resp) /\
    app.inputs (app.meta resp) = example_params /\
    app.ah_m (app.meta resp) = 1000 /\
    5000 <= app.aa_m (app.meta resp) <= 35000 /\
    app.sd_m (app.meta resp) <= 5000.
Proof.
  destruct example_run as (tr & resp & H).
  exists tr, resp. split; [exact H |].
  destruct (response_meta_invariants example_req tr resp H)
    as (H1 & H2 & H3 & H4).
  split; [exact H1 |]. split; [exact H2 |]. split; [exact H3 |].
  apply H4. discriminate.
Defined.
